(** * rust-analyzer VS Code extension: configuration access and nightly
    self-update orchestration

    Shallow embedding of [editors/code/src/config.ts] (class [Config],
    [Storage], [DateStorage]) and of the update orchestrator
    ([ensureProperExtensionVersion], [askToDownloadProperExtensionVersion],
    [tryDownloadNightlyExtension], [diffInHours]).

    - JavaScript numbers that occur here are time values and hour counts:
      they are integers or NaN, and are modelled as [option Z] with
      [None] for NaN.
    - A [Date] is its time value (milliseconds since the epoch, or NaN for
      an invalid date).  The calendar getters and [Date.UTC] follow the
      ECMAScript definitions (Day, YearFromTime, MonthFromTime,
      DateFromTime, MakeDay, MakeDate, TimeClip).
    - Asynchronous code is a finite interaction tree over the calls the
      extension makes to its host (VS Code, the network, the file system);
      a handler answers each call and the run records the calls made. *)

From Stdlib Require Import ZArith List String Ascii Bool Lia DecimalString.
Import ListNotations.

Local Open Scope Z_scope.

(** ** ECMAScript date arithmetic (ECMA-262, "Time Values and Time Range") *)

Module ESDate.

Definition msPerDay : Z := 86400000.

(** Day(t) = floor(t / msPerDay) *)
Definition Day (t : Z) : Z := t / msPerDay.

Definition DaysInYear (y : Z) : Z :=
  if negb (y mod 4 =? 0) then 365
  else if negb (y mod 100 =? 0) then 366
  else if negb (y mod 400 =? 0) then 365
  else 366.

(** Day number of the first day of year [y]. *)
Definition DayFromYear (y : Z) : Z :=
  365 * (y - 1970) + (y - 1969) / 4 - (y - 1901) / 100 + (y - 1601) / 400.

Definition TimeFromYear (y : Z) : Z := msPerDay * DayFromYear y.

(** The largest [y] with [DayFromYear y <= d]: a first guess from the mean
    length of a Gregorian year (146097 days in 400 years), corrected by at
    most one year either way. *)
Definition YearFromDay (d : Z) : Z :=
  let y := 1970 + (400 * d) / 146097 in
  if d <? DayFromYear y then y - 1
  else if DayFromYear (y + 1) <=? d then y + 1
  else y.

(** YearFromTime(t): the largest integer y such that TimeFromYear(y) <= t. *)
Definition YearFromTime (t : Z) : Z := YearFromDay (Day t).

(** InLeapYear(t), as 0 or 1. *)
Definition LeapYear (y : Z) : Z := if DaysInYear y =? 366 then 1 else 0.
Definition InLeapYear (t : Z) : Z := LeapYear (YearFromTime t).

Definition DayWithinYear (t : Z) : Z := Day t - DayFromYear (YearFromTime t).

Definition MonthFromTime (t : Z) : Z :=
  let d := DayWithinYear t in
  let l := InLeapYear t in
  if d <? 31 then 0
  else if d <? 59 + l then 1
  else if d <? 90 + l then 2
  else if d <? 120 + l then 3
  else if d <? 151 + l then 4
  else if d <? 181 + l then 5
  else if d <? 212 + l then 6
  else if d <? 243 + l then 7
  else if d <? 273 + l then 8
  else if d <? 304 + l then 9
  else if d <? 334 + l then 10
  else 11.

Definition DateFromTime (t : Z) : Z :=
  let d := DayWithinYear t in
  let l := InLeapYear t in
  match MonthFromTime t with
  | 0 => d + 1
  | 1 => d - 30
  | 2 => d - 58 - l
  | 3 => d - 89 - l
  | 4 => d - 119 - l
  | 5 => d - 150 - l
  | 6 => d - 180 - l
  | 7 => d - 211 - l
  | 8 => d - 242 - l
  | 9 => d - 272 - l
  | 10 => d - 303 - l
  | _ => d - 333 - l
  end.

(** Day within the year of the first day of month [mn] (0..11). *)
Definition monthStart (mn l : Z) : Z :=
  match mn with
  | 0 => 0
  | 1 => 31
  | 2 => 59 + l
  | 3 => 90 + l
  | 4 => 120 + l
  | 5 => 151 + l
  | 6 => 181 + l
  | 7 => 212 + l
  | 8 => 243 + l
  | 9 => 273 + l
  | 10 => 304 + l
  | _ => 334 + l
  end.

(** MakeDay(year, month, date) on integral arguments: with
    ym = year + floor(month / 12) and mn = month modulo 12, the day number
    of the time value t that has YearFromTime(t) = ym, MonthFromTime(t) = mn
    and DateFromTime(t) = 1, plus date - 1. *)
Definition MakeDay (year month date : Z) : Z :=
  let ym := year + month / 12 in
  let mn := month mod 12 in
  DayFromYear ym + monthStart mn (LeapYear ym) + date - 1.

(** MakeDate(day, time) = day * msPerDay + time *)
Definition MakeDate (day time : Z) : Z := day * msPerDay + time.

(** TimeClip(time): NaN beyond 8.64e15 milliseconds either side of the epoch. *)
Definition TimeClip (time : Z) : option Z :=
  if Z.abs time >? 8640000000000000 then None else Some time.

End ESDate.

(** ** JavaScript numbers and [Date] objects *)

(** The numbers of this program are integers or NaN ([None]). *)
Definition number : Type := option Z.

Definition num_sub (a b : number) : number :=
  match a, b with
  | Some x, Some y => Some (x - y)
  | _, _ => None
  end.

(** [a / b] for a finite non-zero divisor.  The program only divides
    differences of two [Date.UTC] midnights by the milliseconds of an hour;
    such a quotient is an integer (lemma [utc_difference_whole_hours]
    below), so the floating-point division is exact. *)
Definition num_div (a : number) (b : Z) : number :=
  match a with
  | Some x => Some (x / b)
  | None => None
  end.

(** [a < b]: false when an operand is NaN. *)
Definition num_lt (a : number) (b : Z) : bool :=
  match a with
  | Some x => x <? b
  | None => false
  end.

(** [a === b] on numbers: NaN is different from everything, itself included. *)
Definition num_strict_eq (a b : number) : bool :=
  match a, b with
  | Some x, Some y => x =? y
  | _, _ => false
  end.

(** A [Date] object is its time value. *)
Record Date : Type := mkDate { getTime : number }.

(** What the JavaScript engine and Node.js supply to the extension. *)
Record Runtime : Type := mkRuntime {
  (** offset of local time from UTC, in milliseconds, at a UTC time value *)
  LocalTZA : Z -> Z;
  (** [new Date(str)] *)
  Date_parse : string -> Date;
  (** [date.toString()] *)
  Date_toString : Date -> string;
  (** [path.join(dir, file)] *)
  path_join : string -> string -> string;
  (** [os.homedir()] *)
  os_homedir : string;
  (** [process.platform], [process.arch] *)
  process_platform : string;
  process_arch : string;
  (** [process.env.__RA_LSP_SERVER_DEBUG] *)
  RA_LSP_DEBUG : option string
}.

Section JSDate.

Variable rt : Runtime.

Definition LocalTime (t : Z) : Z := t + LocalTZA rt t.

Definition getFullYear (d : Date) : number :=
  option_map (fun t => ESDate.YearFromTime (LocalTime t)) (getTime d).

Definition getMonth (d : Date) : number :=
  option_map (fun t => ESDate.MonthFromTime (LocalTime t)) (getTime d).

Definition getDate (d : Date) : number :=
  option_map (fun t => ESDate.DateFromTime (LocalTime t)) (getTime d).

(** [Date.UTC(year, month, date)]: a year from 0 to 99 stands for
    1900 + year; the remaining time fields default to 0. *)
Definition Date_UTC (year month date : number) : number :=
  match year, month, date with
  | Some y, Some m, Some dt =>
      let yr := if (0 <=? y) && (y <=? 99) then 1900 + y else y in
      ESDate.TimeClip (ESDate.MakeDate (ESDate.MakeDay yr m dt) 0)
  | _, _, _ => None
  end.

Definition diffInHours (a b : Date) : number :=
  (* Discard the time and time-zone information *)
  let utcA := Date_UTC (getFullYear a) (getMonth a) (getDate a) in
  let utcB := Date_UTC (getFullYear b) (getMonth b) (getDate b) in
  num_div (num_sub utcA utcB) (1000 * 60 * 60).

End JSDate.

(** ** Strings *)

Local Open Scope string_scope.

(** [s.startsWith(t)] *)
Definition startsWith (s t : string) : bool := String.prefix t s.

(** [s.endsWith(t)] *)
Definition endsWith (s t : string) : bool :=
  let n := String.length s in
  let m := String.length t in
  (m <=? n)%nat && String.eqb (substring (n - m) m s) t.

(** [s.slice(n)] for [0 <= n] *)
Definition slice (n : nat) (s : string) : string :=
  substring n (String.length s - n) s.

(** A character matched by [\d]. *)
Definition is_digit (c : ascii) : bool :=
  let n := nat_of_ascii c in
  ((48 <=? n) && (n <=? 57))%nat.

Fixpoint all_digits (s : string) : bool :=
  match s with
  | EmptyString => true
  | String c r => is_digit c && all_digits r
  end.

(** The longest prefix of digits, and what follows it. *)
Fixpoint span_digits (s : string) : string * string :=
  match s with
  | EmptyString => (EmptyString, EmptyString)
  | String c r =>
      if is_digit c then
        let (ds, rest) := span_digits r in (String c ds, rest)
      else (EmptyString, s)
  end.

(** [s.match(/^\d+\.\d+\.(\d{4})(\d{2})(\d{2})/)]: the three groups, or
    [None] for [null].  Each [\d+] is followed by [\.], which is no digit,
    so it can only take the whole run of digits. *)
Definition match_realVersionRegexp (s : string) : option (string * string * string) :=
  let (n1, r1) := span_digits s in
  match n1, r1 with
  | String _ _, String "." r2 =>
      let (n2, r3) := span_digits r2 in
      match n2, r3 with
      | String _ _, String "." r4 =>
          let ymd := substring 0 8 r4 in
          if (String.length ymd =? 8)%nat && all_digits ymd
          then Some (substring 0 4 ymd, substring 4 2 ymd, substring 6 2 ymd)
          else None
      | _, _ => None
      end
  | _, _ => None
  end.

(** ** config.ts *)

Inductive UpdatesChannel : Type := Stable | Nightly.

Definition UpdatesChannel_eqb (a b : UpdatesChannel) : bool :=
  match a, b with
  | Stable, Stable | Nightly, Nightly => true
  | _, _ => false
  end.

Definition NIGHTLY_TAG : string := "nightly".

(** Values that are thrown: by the extension itself, by [util.assert], by a
    destructuring of [null], or by the host rejecting an awaited call. *)
Inductive exn : Type :=
| Error (message : string)
| AssertionError (message : string)
| TypeError (message : string)
| Rejection (reason : string).

(** The artifact descriptors of [installation/interfaces.ts], with the
    fields that config.ts fills in. *)
Record GithubRepo : Type := mkRepo { repo_name : string; repo_owner : string }.

(** [ArtifactSource.GithubRelease] *)
Record GithubRelease : Type := mkGithubRelease {
  file : string; tag : string; dir : string; repo : GithubRepo
}.

(** [ArtifactSource], tagged by [ArtifactSource.Type] *)
Inductive ArtifactSource : Type :=
| ExplicitPath (path : string)
| GithubReleaseSource (source : GithubRelease).

Definition isExplicitPath (s : option ArtifactSource) : bool :=
  match s with
  | Some (ExplicitPath _) => true
  | _ => false
  end.

(** Modelled from the spec: [ArtifactReleaseInfo] is declared in
    installation/interfaces.ts, which is absent; the spec asks for "at
    minimum a release date and enough addressing information to download
    it". *)
Record ArtifactReleaseInfo : Type := mkReleaseInfo {
  releaseDate : Date;
  downloadUrl : string
}.

(** A [Config] object: the version read from package.json, the release tag
    computed from it by the constructor, the options of the current
    configuration snapshot that the orchestrator reads, and the storage
    directory of the extension context. *)
Record Config : Type := mkConfig {
  packageJsonVersion : string;   (* n.n.YYYYMMDD[-nightly] *)
  extensionReleaseTag : string;  (* either "nightly" or "YYYY-MM-DD" *)
  serverPath : option string;    (* cfg.get("serverPath") *)
  updatesChannel : UpdatesChannel;       (* cfg.get("updates.channel") *)
  askBeforeDownload : bool;      (* cfg.get("updates.askBeforeDownload") *)
  globalStoragePath : string     (* ctx.globalStoragePath *)
}.

Definition extensionId : string := "matklad.rust-analyzer".

(** The initialiser of the field [extensionReleaseTag]; destructuring the
    [null] of a failed match throws a TypeError. *)
Definition extensionReleaseTag_init (packageJsonVersion : string) : exn + string :=
  if endsWith packageJsonVersion NIGHTLY_TAG then inr NIGHTLY_TAG
  else
    match match_realVersionRegexp packageJsonVersion with
    | Some (yyyy, mm, dd) => inr (yyyy ++ "-" ++ mm ++ "-" ++ dd)
    | None => inl (TypeError "object null is not iterable")
    end.

(** [new Config(ctx)], given the version in package.json and the options
    of the configuration snapshot. *)
Definition Config_new (version : string) (serverPath : option string)
    (channel : UpdatesChannel) (ask : bool) (storagePath : string) : exn + Config :=
  match extensionReleaseTag_init version with
  | inl e => inl e
  | inr tag => inr (mkConfig version tag serverPath channel ask storagePath)
  end.

Definition installedExtensionUpdateChannel (config : Config) : UpdatesChannel :=
  if String.eqb (extensionReleaseTag config) NIGHTLY_TAG then Nightly else Stable.

(** Truthiness of a [null | string]. *)
Definition truthy (s : option string) : bool :=
  match s with
  | Some (String _ _) => true
  | _ => false
  end.

Section ConfigGetters.

Variable rt : Runtime.

Definition replaceTildeWithHomeDir (path : string) : string :=
  if startsWith path "~/" then os_homedir rt ++ slice (String.length "~") path
  else path.

Definition prebuiltServerFileName : option string :=
  let platform := process_platform rt in
  let arch := process_arch rt in
  if String.eqb platform "linux" then
    if String.eqb arch "arm" || String.eqb arch "arm64" then None
    else Some "rust-analyzer-linux"
  else if String.eqb platform "darwin" then Some "rust-analyzer-mac"
  else if String.eqb platform "win32" then Some "rust-analyzer-windows.exe"
  else None.

Definition createGithubReleaseSource (config : Config) (file tag : string) : GithubRelease :=
  mkGithubRelease file tag (globalStoragePath config) (mkRepo "rust-analyzer" "rust-analyzer").

Definition serverSource (config : Config) : option ArtifactSource :=
  let serverPath :=
    match RA_LSP_DEBUG rt with
    | Some p => Some p
    | None => serverPath config
    end in
  match serverPath with
  | Some (String _ _ as p) => Some (ExplicitPath (replaceTildeWithHomeDir p))
  | _ =>
      match prebuiltServerFileName with
      | Some (String _ _ as prebuiltBinaryName) =>
          Some (GithubReleaseSource
                  (createGithubReleaseSource config prebuiltBinaryName (extensionReleaseTag config)))
      | _ => None
      end
  end.

Definition nightlyVsixSource (config : Config) : GithubRelease :=
  createGithubReleaseSource config "rust-analyzer.vsix" NIGHTLY_TAG.

End ConfigGetters.

(** The key of [installedNightlyExtensionReleaseDate] in [globalState]. *)
Definition installedNightlyExtensionReleaseDate : string :=
  "installed-nightly-extension-release-date".

(** ** Asynchronous programs over the host *)

(** An argument of a log call. *)
Inductive LogArg : Type :=
| LStr (s : string)
| LOptStr (s : option string)
| LNum (n : number)
| LDate (d : Date).

(** Calls that return at once. *)
Inductive Call : Type -> Type :=
| NewDate : Call Date                                        (* new Date *)
| MementoGet (key : string) : Call (option string)           (* globalState.get(key, null) *)
| ShowErrorMessage (msg : string) : Call unit                (* promise dropped *)
| ShowInformationMessage (msg : string) : Call unit          (* no items, promise dropped *)
| LogDebug (args : list LogArg) : Call unit
| LogDownloadError (err : exn) (artifactName repoName : string) : Call unit.

(** Calls whose promise is awaited. *)
Inductive Async : Type -> Type :=
| MementoUpdate (key : string) (val : option string) : Async unit
| AskInformationMessage (msg : string) (items : list string) : Async (option string)
| FetchArtifactReleaseInfo (repo : GithubRepo) (file tag : string) : Async ArtifactReleaseInfo
| DownloadArtifactWithProgressUi (info : ArtifactReleaseInfo) (file dir name : string) : Async unit
| VscodeInstallExtensionFromVsix (path : string) : Async unit
| VscodeReinstallExtension (id : string) : Async unit
| FsUnlink (path : string) : Async unit
| VscodeReloadWindow : Async Empty_set.                      (* Promise<never> *)

(** How an awaited promise settles. *)
Inductive Settled (X : Type) : Type :=
| Resolved (x : X)
| Rejected (e : exn).
Arguments Resolved {X} x.
Arguments Rejected {X} e.

(** A program: it returns, throws, calls the host, awaits the host, or reads
    or writes the flag [entered] that [notReentrant] keeps in its closure. *)
Inductive Prog (A : Type) : Type :=
| Ret (a : A)
| Throw (e : exn)
| Do {X : Type} (c : Call X) (k : X -> Prog A)
| Await {X : Type} (op : Async X) (k : Settled X -> Prog A)
| GetEntered (k : bool -> Prog A)
| SetEntered (b : bool) (k : Prog A).
Arguments Ret {A} a.
Arguments Throw {A} e.
Arguments Do {A X} c k.
Arguments Await {A X} op k.
Arguments GetEntered {A} k.
Arguments SetEntered {A} b k.

Fixpoint bind {A B : Type} (p : Prog A) (f : A -> Prog B) : Prog B :=
  match p with
  | Ret a => f a
  | Throw e => Throw e
  | Do c k => Do c (fun x => bind (k x) f)
  | Await op k => Await op (fun r => bind (k r) f)
  | GetEntered k => GetEntered (fun b => bind (k b) f)
  | SetEntered b k => SetEntered b (bind k f)
  end.

Declare Scope prog_scope.
Delimit Scope prog_scope with prog.
Bind Scope prog_scope with Prog.
Notation "x <- p ;; q" := (bind p (fun x => q))
  (at level 61, p at next level, right associativity) : prog_scope.
Notation "p ;; q" := (bind p (fun _ => q))
  (at level 61, right associativity) : prog_scope.
Local Open Scope prog_scope.

(** A call statement. *)
Definition call {X : Type} (c : Call X) : Prog X := Do c Ret.

(** [await op]: the value of a resolved promise; a rejected one throws. *)
Definition await {X : Type} (op : Async X) : Prog X :=
  Await op (fun r => match r with Resolved x => Ret x | Rejected e => Throw e end).

(** [try { p } catch (err) { h err }] *)
Fixpoint try_catch {A : Type} (p : Prog A) (h : exn -> Prog A) : Prog A :=
  match p with
  | Ret a => Ret a
  | Throw e => h e
  | Do c k => Do c (fun x => try_catch (k x) h)
  | Await op k => Await op (fun r => try_catch (k r) h)
  | GetEntered k => GetEntered (fun b => try_catch (k b) h)
  | SetEntered b k => SetEntered b (try_catch k h)
  end.

(** [p.finally(() => entered = b)] *)
Fixpoint finally_set_entered {A : Type} (p : Prog A) (b : bool) : Prog A :=
  match p with
  | Ret a => SetEntered b (Ret a)
  | Throw e => SetEntered b (Throw e)
  | Do c k => Do c (fun x => finally_set_entered (k x) b)
  | Await op k => Await op (fun r => finally_set_entered (k r) b)
  | GetEntered k => GetEntered (fun e => finally_set_entered (k e) b)
  | SetEntered b' k => SetEntered b' (finally_set_entered k b)
  end.

(** What a run records: each call with the answer it got; for an awaited
    call, [None] when its promise never settles. *)
Inductive Obs : Type :=
| ONewDate (d : Date)
| OMementoGet (key : string) (val : option string)
| OShowErrorMessage (msg : string)
| OShowInformationMessage (msg : string)
| OLogDebug (args : list LogArg)
| OLogDownloadError (err : exn) (artifactName repoName : string)
| OMementoUpdate (key : string) (val : option string) (r : option (Settled unit))
| OAskInformationMessage (msg : string) (items : list string)
    (r : option (Settled (option string)))
| OFetchArtifactReleaseInfo (repo : GithubRepo) (file tag : string)
    (r : option (Settled ArtifactReleaseInfo))
| ODownloadArtifactWithProgressUi (info : ArtifactReleaseInfo) (file dir name : string)
    (r : option (Settled unit))
| OVscodeInstallExtensionFromVsix (path : string) (r : option (Settled unit))
| OVscodeReinstallExtension (id : string) (r : option (Settled unit))
| OFsUnlink (path : string) (r : option (Settled unit))
| OVscodeReloadWindow (r : option (Settled Empty_set)).

Definition observe_call {X : Type} (c : Call X) : X -> Obs :=
  match c in Call X return X -> Obs with
  | NewDate => ONewDate
  | MementoGet key => OMementoGet key
  | ShowErrorMessage msg => fun _ => OShowErrorMessage msg
  | ShowInformationMessage msg => fun _ => OShowInformationMessage msg
  | LogDebug args => fun _ => OLogDebug args
  | LogDownloadError err a r => fun _ => OLogDownloadError err a r
  end.

Definition observe_async {X : Type} (op : Async X) : option (Settled X) -> Obs :=
  match op in Async X return option (Settled X) -> Obs with
  | MementoUpdate key val => OMementoUpdate key val
  | AskInformationMessage msg items => OAskInformationMessage msg items
  | FetchArtifactReleaseInfo repo file tag => OFetchArtifactReleaseInfo repo file tag
  | DownloadArtifactWithProgressUi info file dir name =>
      ODownloadArtifactWithProgressUi info file dir name
  | VscodeInstallExtensionFromVsix path => OVscodeInstallExtensionFromVsix path
  | VscodeReinstallExtension id => OVscodeReinstallExtension id
  | FsUnlink path => OFsUnlink path
  | VscodeReloadWindow => OVscodeReloadWindow
  end.

(** How a run ends: the promise of the procedure resolves, rejects, or stays
    pending for ever (an awaited promise never settled; for
    [vscodeReloadWindow] this is the reload of the window). *)
Inductive Outcome (A : Type) : Type :=
| Returned (a : A)
| Thrown (e : exn)
| Pending.
Arguments Returned {A} a.
Arguments Thrown {A} e.
Arguments Pending {A}.

(** The host: it answers every call, from a state of its own that the
    calls (and whatever else happens meanwhile) may change. *)
Record Host (W : Type) : Type := mkHost {
  answer : forall X : Type, Call X -> W -> X * W;
  settle : forall X : Type, Async X -> W -> option (Settled X) * W
}.
Arguments answer {W} h {X} c w.
Arguments settle {W} h {X} op w.

(** The result of a run: outcome, the calls made in order, and the final
    flag and host state. *)
Record Run (A W : Type) : Type := mkRun {
  outcome : Outcome A;
  trace : list Obs;
  entered : bool;
  world : W
}.
Arguments mkRun {A W} outcome trace entered world.
Arguments outcome {A W} r.
Arguments trace {A W} r.
Arguments entered {A W} r.
Arguments world {A W} r.

Definition observed {A W : Type} (o : Obs) (r : Run A W) : Run A W :=
  mkRun (outcome r) (o :: trace r) (entered r) (world r).

Section Running.

Context {W : Type}.
Variable host : Host W.

(** One invocation run to its end, every awaited promise being settled (or
    not) by the host. *)
Fixpoint run {A : Type} (p : Prog A) (e : bool) (w : W) : Run A W :=
  match p with
  | Ret a => mkRun (Returned a) [] e w
  | Throw err => mkRun (Thrown err) [] e w
  | Do c k =>
      let (x, w') := answer host c w in
      observed (observe_call c x) (run (k x) e w')
  | Await op k =>
      let (r, w') := settle host op w in
      match r with
      | Some s => observed (observe_async op r) (run (k s) e w')
      | None => mkRun Pending [observe_async op None] e w'
      end
  | GetEntered k => run (k e) e w
  | SetEntered b k => run k b w
  end.

End Running.

(** ** [Storage] and [DateStorage] over [globalState] *)

Definition Storage_get (key : string) : Prog (option string) :=
  val <- call (MementoGet key) ;;
  call (LogDebug [LStr key; LStr "=="; LOptStr val]) ;;
  Ret val.

Definition Storage_set (key : string) (val : option string) : Prog unit :=
  call (LogDebug [LStr key; LStr "="; LOptStr val]) ;;
  await (MementoUpdate key val).

Section Orchestrator.

Variable rt : Runtime.

(** Modelled from the spec: [notReentrant] is defined in util.ts, which is
    absent.  The spec asks that a nested invocation be "rejected/ignored";
    [onReentry] is what such an invocation does: [Some e] rejects with [e],
    [None] resolves at once. *)
Variable onReentry : option exn.

Definition DateStorage_get (key : string) : Prog (option Date) :=
  dateStr <- Storage_get key ;;
  Ret (if truthy dateStr
       then option_map (Date_parse rt) dateStr
       else None).

Definition DateStorage_set (key : string) (date : option Date) : Prog unit :=
  Storage_set key (option_map (Date_toString rt) date).

(** Modelled from the spec: [assert] is defined in util.ts, which is absent;
    a violated consistency condition is "raised as an unrecoverable error". *)
Definition assert (condition : bool) (explanation : string) : Prog unit :=
  if condition then Ret tt else Throw (AssertionError explanation).

(** Modelled from the spec: [notReentrant] (util.ts, absent) is "an explicit
    state flag owned by the orchestrator instance, checked atomically at
    entry and released on every exit path (success, failure, or early
    abort)"; a nested invocation is rejected or ignored. *)
Definition notReentrant {P Q A : Type} (fn : P -> Q -> Prog A) (ignored : A)
    (p : P) (q : Q) : Prog A :=
  GetEntered (fun entered =>
    if entered then
      match onReentry with
      | Some e => Throw e
      | None => Ret ignored
      end
    else SetEntered true (finally_set_entered (fn p q) false)).

Definition HEURISTIC_NIGHTLY_RELEASE_PERIOD_IN_HOURS : Z := 25.

Definition askToDownloadProperExtensionVersion (config : Config) (reason : string)
  : Prog bool :=
  if negb (askBeforeDownload config) then Ret true
  else
    let stableOrNightly :=
      if UpdatesChannel_eqb (updatesChannel config) Stable then "stable"
      else "latest nightly" in
    userResponse <- await (AskInformationMessage
      (reason ++ "Do you want to download the " ++ stableOrNightly
         ++ " rust-analyzer extension " ++ "version and reload the window now?")
      ["Download now"; "Cancel"]) ;;
    Ret (match userResponse with
         | Some s => String.eqb s "Download now"
         | None => false
         end).

(** The async arrow function that [notReentrant] wraps. *)
Definition tryDownloadNightlyExtension_fn (config : Config)
    (shouldDownload : ArtifactReleaseInfo -> Prog bool) : Prog unit :=
  let vsixSource := nightlyVsixSource config in
  try_catch
    (releaseInfo <- await (FetchArtifactReleaseInfo
                             (repo vsixSource) (file vsixSource) (tag vsixSource)) ;;
     ok <- shouldDownload releaseInfo ;;
     if negb ok then Ret tt
     else
       await (DownloadArtifactWithProgressUi
                releaseInfo (file vsixSource) (dir vsixSource) "nightly extension") ;;
       let vsixPath := path_join rt (dir vsixSource) (file vsixSource) in
       await (VscodeInstallExtensionFromVsix vsixPath) ;;
       DateStorage_set installedNightlyExtensionReleaseDate
         (Some (releaseDate releaseInfo)) ;;
       await (FsUnlink vsixPath) ;;
       never <- await VscodeReloadWindow ;; (* never returns *)
       match never : Empty_set with end)
    (fun err =>
       call (LogDownloadError err "nightly extension" (repo_name (repo vsixSource)))).

Definition tryDownloadNightlyExtension
  : Config -> (ArtifactReleaseInfo -> Prog bool) -> Prog unit :=
  notReentrant tryDownloadNightlyExtension_fn tt.

(** The default value of the parameter [shouldDownload]: [() => true]. *)
Definition shouldDownload_default (_ : ArtifactReleaseInfo) : Prog bool := Ret true.

(** The guard that [ensureProperExtensionVersion] passes when the installed
    nightly looks outdated. *)
Definition shouldDownload_outdated (currentExtReleaseDate : Date)
    (releaseInfo : ArtifactReleaseInfo) : Prog bool :=
  stored <- DateStorage_get installedNightlyExtensionReleaseDate ;;
  assert
    (match stored with
     | Some d => num_strict_eq (getTime currentExtReleaseDate) (getTime d)
     | None => false (* a number is never [=== undefined] *)
     end)
    "Other active VSCode instance has reinstalled the extension" ;;
  if num_strict_eq (getTime (releaseDate releaseInfo)) (getTime currentExtReleaseDate)
  then
    call (ShowInformationMessage
      ("Whoops, it appears that your nightly version is up-to-date. "
       ++ "There might be some problems with the upcomming nightly release "
       ++ "or you traveled too far into the future. Sorry for that 😅! ")) ;;
    Ret false
  else Ret true.

(** Installs [stable] or latest [nightly] version or does nothing if the
    current extension version is what's needed according to
    [desiredUpdChannel].  The block for a desired stable channel ends in a
    [return] or in [vscodeReloadWindow], which never returns, so what follows
    it is its [else]. *)
Definition ensureProperExtensionVersion (config : Config) : Prog unit :=
  (* User has built lsp server from sources, she should manage updates manually *)
  if isExplicitPath (serverSource rt config) then Ret tt
  else
    let currentUpdChannel := installedExtensionUpdateChannel config in
    let desiredUpdChannel := updatesChannel config in
    (if UpdatesChannel_eqb currentUpdChannel Stable
     then (* Release date is present only when we are on nightly *)
       DateStorage_set installedNightlyExtensionReleaseDate None
     else Ret tt) ;;
    if UpdatesChannel_eqb desiredUpdChannel Stable then
      (* VSCode should handle updates for stable channel *)
      if UpdatesChannel_eqb currentUpdChannel Stable then Ret tt
      else
        ok <- askToDownloadProperExtensionVersion config "" ;;
        if negb ok then Ret tt
        else
          await (VscodeReinstallExtension extensionId) ;;
          never <- await VscodeReloadWindow ;; (* never returns *)
          match never : Empty_set with end
    else if UpdatesChannel_eqb currentUpdChannel Stable then
      ok <- askToDownloadProperExtensionVersion config "" ;;
      if negb ok then Ret tt
      else tryDownloadNightlyExtension config shouldDownload_default
    else
      currentExtReleaseDate <- DateStorage_get installedNightlyExtensionReleaseDate ;;
      match currentExtReleaseDate with
      | None =>
          call (ShowErrorMessage
            ("Nightly release date must've been set during the installation. "
             ++ "Did you download and install the nightly .vsix package manually?")) ;;
          Throw (Error "Nightly release date was not set in globalStorage")
      | Some currentExtReleaseDate =>
          dateNow <- call NewDate ;;
          let hoursSinceLastUpdate := diffInHours rt currentExtReleaseDate dateNow in
          call (LogDebug
            [LStr "Current rust-analyzer nightly was downloaded";
             LNum hoursSinceLastUpdate;
             LStr "hours ago, namely:"; LDate currentExtReleaseDate;
             LStr "and now is"; LDate dateNow]) ;;
          if num_lt hoursSinceLastUpdate HEURISTIC_NIGHTLY_RELEASE_PERIOD_IN_HOURS
          then Ret tt
          else
            ok <- askToDownloadProperExtensionVersion config
                    "The installed nightly version is most likely outdated. " ;;
            if negb ok then Ret tt
            else
              tryDownloadNightlyExtension config
                (shouldDownload_outdated currentExtReleaseDate)
      end.

End Orchestrator.

(** A program that neither reads nor writes the flag of [notReentrant]. *)
Inductive flag_free {A : Type} : Prog A -> Prop :=
| ff_Ret : forall a, flag_free (Ret a)
| ff_Throw : forall e, flag_free (Throw e)
| ff_Do : forall X (c : Call X) k, (forall x, flag_free (k x)) -> flag_free (Do c k)
| ff_Await : forall X (op : Async X) k,
    (forall r, flag_free (k r)) -> flag_free (Await op k).

(** ** Turns of the event loop

    An invocation runs without interruption up to its next [await]; it goes
    on when the host settles the awaited promise.  Other invocations can
    start in between. *)

Inductive Task (A : Type) : Type :=
| Finished (o : Outcome A)
| Suspended {X : Type} (op : Async X) (k : Settled X -> Prog A).
Arguments Finished {A} o.
Arguments Suspended {A X} op k.

(** An invocation after a turn, with the calls made during the turn, the
    flag of [notReentrant] and the state of the host. *)
Record Turn (A W : Type) : Type := mkTurn {
  task : Task A;
  calls : list Obs;
  flag : bool;
  host_state : W
}.
Arguments mkTurn {A W} task calls flag host_state.
Arguments task {A W} t.
Arguments calls {A W} t.
Arguments flag {A W} t.
Arguments host_state {A W} t.

Section Turns.

Context {W : Type}.
Variable host : Host W.

(** Run [p] up to its next [await]. *)
Fixpoint advance {A : Type} (p : Prog A) (e : bool) (w : W) : Turn A W :=
  match p with
  | Ret a => mkTurn (Finished (Returned a)) [] e w
  | Throw err => mkTurn (Finished (Thrown err)) [] e w
  | Do c k =>
      let (x, w') := answer host c w in
      let t := advance (k x) e w' in
      mkTurn (task t) (observe_call c x :: calls t) (flag t) (host_state t)
  | Await op k => mkTurn (Suspended op k) [] e w
  | GetEntered k => advance (k e) e w
  | SetEntered b k => advance k b w
  end.

(** The states an invocation goes through once it has been started: the
    host settles the promise it awaits and the invocation takes its next
    turn, or something else changes the state of the host meanwhile. *)
Inductive in_flight {A : Type} : Turn A W -> Turn A W -> Prop :=
| flight_settled : forall t X (op : Async X) k s w',
    task t = Suspended op k ->
    settle host op (host_state t) = (Some s, w') ->
    in_flight t (advance (k s) (flag t) w')
| flight_meanwhile : forall t w',
    in_flight t (mkTurn (task t) (calls t) (flag t) w').

Inductive reaches {A : Type} : Turn A W -> Turn A W -> Prop :=
| reaches_refl : forall t, reaches t t
| reaches_step : forall t1 t2 t3, reaches t1 t2 -> in_flight t2 t3 -> reaches t1 t3.

Definition suspended {A : Type} (t : Turn A W) : bool :=
  match task t with
  | Suspended _ _ => true
  | Finished _ => false
  end.

(** While an invocation that [notReentrant] has let in is suspended, the
    flag is set, and what remains of the invocation ends by clearing it
    and does not touch it before. *)
Definition holds_flag {A : Type} (t : Turn A W) : Prop :=
  match task t with
  | Finished _ => True
  | Suspended op k =>
      flag t = true
      /\ exists k', (forall r, flag_free (k' r))
                    /\ (forall r, k r = finally_set_entered (k' r) false)
  end.

End Turns.

(** ** What a run did *)

Definition is_prompt (o : Obs) : bool :=
  match o with
  | OAskInformationMessage _ _ _ => true
  | _ => false
  end.

(** Network calls: the query for the release metadata and the download. *)
Definition is_network (o : Obs) : bool :=
  match o with
  | OFetchArtifactReleaseInfo _ _ _ _ | ODownloadArtifactWithProgressUi _ _ _ _ _ => true
  | _ => false
  end.

Definition is_download (o : Obs) : bool :=
  match o with
  | ODownloadArtifactWithProgressUi _ _ _ _ _ => true
  | _ => false
  end.

Definition is_install (o : Obs) : bool :=
  match o with
  | OVscodeInstallExtensionFromVsix _ _ | OVscodeReinstallExtension _ _ => true
  | _ => false
  end.

(** Writes to the persisted state. *)
Definition is_write (o : Obs) : bool :=
  match o with
  | OMementoUpdate _ _ _ => true
  | _ => false
  end.

Definition is_restart (o : Obs) : bool :=
  match o with
  | OVscodeReloadWindow _ => true
  | _ => false
  end.

Definition is_unlink (o : Obs) : bool :=
  match o with
  | OFsUnlink _ _ => true
  | _ => false
  end.

(** No observation of the trace satisfies [f]. *)
Definition none_of (f : Obs -> bool) (tr : list Obs) : bool := negb (existsb f tr).

(** The exception that a rejected awaited call carried. *)
Definition rejection (o : Obs) : option exn :=
  match o with
  | OMementoUpdate _ _ (Some (Rejected e))
  | OAskInformationMessage _ _ (Some (Rejected e))
  | OFetchArtifactReleaseInfo _ _ _ (Some (Rejected e))
  | ODownloadArtifactWithProgressUi _ _ _ _ (Some (Rejected e))
  | OVscodeInstallExtensionFromVsix _ (Some (Rejected e))
  | OVscodeReinstallExtension _ (Some (Rejected e))
  | OFsUnlink _ (Some (Rejected e))
  | OVscodeReloadWindow (Some (Rejected e)) => Some e
  | _ => None
  end.

(** A program that only makes calls that return at once, as the body of a
    function that is not [async] does. *)
Inductive synchronous {A : Type} : Prog A -> Prop :=
| sync_Ret : forall a, synchronous (Ret a)
| sync_Throw : forall e, synchronous (Throw e)
| sync_Do : forall X (c : Call X) k,
    (forall x, synchronous (k x)) -> synchronous (Do c k).

(** ** Calendar days of a time value *)

(** The day number of the local calendar date of the time value [t]. *)
Definition local_day (rt : Runtime) (t : Z) : Z := ESDate.Day (LocalTime rt t).

(** The year of the local calendar date of [t]. *)
Definition local_year (rt : Runtime) (t : Z) : Z := ESDate.YearFromTime (LocalTime rt t).

(** Days whose midnight is a time value: at most 100,000,000 days either
    side of 1 January 1970. *)
Definition in_Date_range (day : Z) : Prop := -100000000 <= day <= 100000000.

(** Years that [Date.UTC] reads as 1900 + year. *)
Definition two_digit_year (y : Z) : Prop := 0 <= y <= 99.

(** ** Comparing runs *)

(** The run [r], after the calls [tr]. *)
Definition after {A W : Type} (tr : list Obs) (r : Run A W) : Run A W :=
  mkRun (outcome r) (tr ++ trace r) (entered r) (world r).

(** What the regular expression of [match_realVersionRegexp] accepts:
    digits, a dot, digits, a dot, eight digits, and anything after them. *)
Definition realVersion (s yyyy mm dd : string) : Prop :=
  exists n1 n2 rest,
    s = n1 ++ "." ++ n2 ++ "." ++ yyyy ++ mm ++ dd ++ rest
    /\ n1 <> "" /\ all_digits n1 = true
    /\ n2 <> "" /\ all_digits n2 = true
    /\ String.length yyyy = 4%nat /\ all_digits yyyy = true
    /\ String.length mm = 2%nat /\ all_digits mm = true
    /\ String.length dd = 2%nat /\ all_digits dd = true.

(** The configuration [config] with the option [updates.askBeforeDownload]
    set to [ask]. *)
Definition with_askBeforeDownload (config : Config) (ask : bool) : Config :=
  mkConfig (packageJsonVersion config) (extensionReleaseTag config) (serverPath config)
    (updatesChannel config) ask (globalStoragePath config).

(** The calls of a trace other than prompts. *)
Definition without_prompts (tr : list Obs) : list Obs :=
  filter (fun o => negb (is_prompt o)) tr.

Definition is_ask {X : Type} (op : Async X) : bool :=
  match op with
  | AskInformationMessage _ _ => true
  | _ => false
  end.

(** A program that never asks the user. *)
Inductive prompt_free {A : Type} : Prog A -> Prop :=
| pf_Ret : forall a, prompt_free (Ret a)
| pf_Throw : forall e, prompt_free (Throw e)
| pf_Do : forall X (c : Call X) k, (forall x, prompt_free (k x)) -> prompt_free (Do c k)
| pf_Await : forall X (op : Async X) k,
    is_ask op = false -> (forall r, prompt_free (k r)) -> prompt_free (Await op k)
| pf_GetEntered : forall k, (forall b, prompt_free (k b)) -> prompt_free (GetEntered k)
| pf_SetEntered : forall b k, prompt_free k -> prompt_free (SetEntered b k).

(** Two runs that made the same calls with the same answers and ended the
    same way, but for the prompts of the second; the first showed none. *)
Definition same_but_prompts {A W : Type} (r r' : Run A W) : Prop :=
  none_of is_prompt (trace r) = true
  /\ outcome r = outcome r'
  /\ trace r = without_prompts (trace r')
  /\ entered r = entered r'
  /\ world r = world r'.

(** The message that [shouldDownload_outdated] shows when the latest
    nightly is the installed one. *)
Definition up_to_date_message : string :=
  "Whoops, it appears that your nightly version is up-to-date. "
  ++ "There might be some problems with the upcomming nightly release "
  ++ "or you traveled too far into the future. Sorry for that 😅! ".

(** The calls of a synchronous function: nothing awaited. *)
Definition quiet (tr : list Obs) : Prop :=
  Forall (fun o => rejection o = None /\ is_restart o = false /\ is_write o = false
                   /\ is_network o = false /\ is_install o = false
                   /\ is_unlink o = false /\ is_prompt o = false) tr.

(** ** A host and a runtime to run examples on *)

Module Example.

(** One persisted value (every key reads it), a fixed clock, a user who
    always gives the same response, a fixed release on the server; [broken]
    lists the awaited calls that fail. The window reloads when asked to. *)
Record Script : Type := mkScript {
  now : Date;
  userResponse : option string;
  latest : ArtifactReleaseInfo;
  broken : forall X : Type, Async X -> option exn
}.

Definition scripted_answer (s : Script) (X : Type) (c : Call X) (w : option string)
  : X * option string :=
  match c in Call X return X * option string with
  | NewDate => (now s, w)
  | MementoGet _ => (w, w)
  | ShowErrorMessage _ => (tt, w)
  | ShowInformationMessage _ => (tt, w)
  | LogDebug _ => (tt, w)
  | LogDownloadError _ _ _ => (tt, w)
  end.

Definition scripted_settle (s : Script) (X : Type) (op : Async X) (w : option string)
  : option (Settled X) * option string :=
  match broken s X op with
  | Some e => (Some (Rejected e), w)
  | None =>
      match op in Async X return option (Settled X) * option string with
      | MementoUpdate _ val => (Some (Resolved tt), val)
      | AskInformationMessage _ _ => (Some (Resolved (userResponse s)), w)
      | FetchArtifactReleaseInfo _ _ _ => (Some (Resolved (latest s)), w)
      | DownloadArtifactWithProgressUi _ _ _ _ => (Some (Resolved tt), w)
      | VscodeInstallExtensionFromVsix _ => (Some (Resolved tt), w)
      | VscodeReinstallExtension _ => (Some (Resolved tt), w)
      | FsUnlink _ => (Some (Resolved tt), w)
      | VscodeReloadWindow => (None, w)
      end
  end.

Definition scripted (s : Script) : Host (option string) :=
  mkHost (option string) (scripted_answer s) (scripted_settle s).

Definition nothing_broken (X : Type) (_ : Async X) : option exn := None.

Definition download_broken (X : Type) (op : Async X) : option exn :=
  match op with
  | DownloadArtifactWithProgressUi _ _ _ _ => Some (Rejection "ECONNRESET")
  | _ => None
  end.

(** Dates are written to storage as the decimal of their time value. *)
Definition toString (d : Date) : string :=
  match getTime d with
  | Some t => NilZero.string_of_int (Z.to_int t)
  | None => "Invalid Date"
  end.

Definition parse (s : string) : Date :=
  mkDate (option_map Z.of_int (NilZero.int_of_string s)).

(** A Linux machine whose local time is [tza] milliseconds ahead of UTC. *)
Definition runtime (tza : Z) : Runtime :=
  mkRuntime (fun _ => tza) parse toString
    (fun d f => d ++ "/" ++ f) "/home/user" "linux" "x64" None.

(** A host on UTC and one that is an hour ahead of it. *)
Definition utc : Runtime := runtime 0.
Definition ahead : Runtime := runtime 3600000.

Definition date (t : Z) : Date := mkDate (Some t).

(** Time values of 2020-03-01, 2020-03-03 and 2020-03-05, 00:00:00 UTC. *)
Definition march1 : Z := 1583020800000.
Definition march3 : Z := 1583193600000.
Definition march5 : Z := 1583366400000.

Definition nightly_config (ask : bool) (channel : UpdatesChannel) : Config :=
  mkConfig "0.2.20200301-nightly" "nightly" None channel ask "/storage".

Definition stable_config (ask : bool) (channel : UpdatesChannel) : Config :=
  mkConfig "0.2.20200301" "2020-03-01" None channel ask "/storage".

Definition release (t : Z) : ArtifactReleaseInfo :=
  mkReleaseInfo (date t) "https://example.org/rust-analyzer.vsix".

(** It is [t_now], the latest nightly is that of [t_latest], the user
    accepts every prompt, and every call succeeds. *)
Definition accepting (t_now t_latest : Z) : Script :=
  mkScript (date t_now) (Some "Download now") (release t_latest) nothing_broken.

(** The same, but the download fails. *)
Definition failing_download (t_now t_latest : Z) : Script :=
  mkScript (date t_now) (Some "Download now") (release t_latest) download_broken.

(** The orchestrator on the UTC host; nested invocations are rejected. *)
Definition reentered : exn := AssertionError "Reentrancy invariant is violated".

Definition orchestrate (s : Script) (config : Config) (stored : option string)
  : Run unit (option string) :=
  run (scripted s) (ensureProperExtensionVersion utc (Some reentered) config) false stored.

(** The fetch and install procedure on the UTC host. *)
Definition tryDownload (guard : ArtifactReleaseInfo -> Prog bool) : Prog unit :=
  tryDownloadNightlyExtension utc (Some reentered) (nightly_config true Nightly) guard.

End Example.

(** ** More of config.ts and of the orchestrator, for the properties below *)

(** The configuration [config] with the option [serverPath] set to [path]. *)
Definition with_serverPath (config : Config) (path : option string) : Config :=
  mkConfig (packageJsonVersion config) (extensionReleaseTag config) path
    (updatesChannel config) (askBeforeDownload config) (globalStoragePath config).

(** The value that [serverSource] tests: [RA_LSP_DEBUG ?? this.serverPath]. *)
Definition debug_or_serverPath (rt : Runtime) (config : Config) : option string :=
  match RA_LSP_DEBUG rt with
  | Some p => Some p
  | None => serverPath config
  end.

(** A release tag of the form YYYY-MM-DD. *)
Definition is_date_tag (s : string) : Prop :=
  exists yyyy mm dd,
    s = yyyy ++ "-" ++ mm ++ "-" ++ dd
    /\ String.length yyyy = 4%nat /\ all_digits yyyy = true
    /\ String.length mm = 2%nat /\ all_digits mm = true
    /\ String.length dd = 2%nat /\ all_digits dd = true.

(** A host whose [globalState] keeps what is written to it: [read w key] is
    the value under [key] in the state [w]; reading and logging leave it
    alone, and an update resolves and stores its value. *)
Record is_store {W : Type} (host : Host W) (read : W -> string -> option string)
  : Prop := mkStore {
  store_get : forall key w,
    fst (answer host (MementoGet key) w) = read w key
    /\ forall k, read (snd (answer host (MementoGet key) w)) k = read w k;
  store_log : forall args w k,
    read (snd (answer host (LogDebug args) w)) k = read w k;
  store_update : forall key val w,
    fst (settle host (MementoUpdate key val) w) = Some (Resolved tt)
    /\ read (snd (settle host (MementoUpdate key val) w)) key = val
}.

(** The user's answer to a prompt that was shown, when it is not the
    button "Download now": another button, or the prompt dismissed. *)
Definition declined (o : Obs) : bool :=
  match o with
  | OAskInformationMessage _ _ (Some (Resolved (Some s))) =>
      negb (String.eqb s "Download now")
  | OAskInformationMessage _ _ (Some (Resolved None)) => true
  | _ => false
  end.

(** The calls of [tr] that come before its first observation for which [f]
    holds (all of [tr] when there is none). *)
Fixpoint before (f : Obs -> bool) (tr : list Obs) : list Obs :=
  match tr with
  | [] => []
  | o :: rest => if f o then [] else o :: before f rest
  end.

Definition is_fetched (o : Obs) : bool :=
  match o with
  | OFetchArtifactReleaseInfo _ _ _ (Some (Resolved _)) => true
  | _ => false
  end.

Definition is_downloaded (o : Obs) : bool :=
  match o with
  | ODownloadArtifactWithProgressUi _ _ _ _ (Some (Resolved _)) => true
  | _ => false
  end.

Definition is_installed (o : Obs) : bool :=
  match o with
  | OVscodeInstallExtensionFromVsix _ (Some (Resolved _)) => true
  | _ => false
  end.

Definition is_written (o : Obs) : bool :=
  match o with
  | OMementoUpdate _ _ (Some (Resolved _)) => true
  | _ => false
  end.

Definition is_unlinked (o : Obs) : bool :=
  match o with
  | OFsUnlink _ (Some (Resolved _)) => true
  | _ => false
  end.

Definition is_reinstalled (o : Obs) : bool :=
  match o with
  | OVscodeReinstallExtension _ (Some (Resolved _)) => true
  | _ => false
  end.

(** A runtime like [Example.utc] with the environment variable
    [__RA_LSP_SERVER_DEBUG] set to [debug], on the platform [platform]. *)
Definition runtime_with (debug : option string) (platform arch : string) : Runtime :=
  mkRuntime (fun _ => 0%Z) Example.parse Example.toString
    (fun d f => d ++ "/" ++ f) "/home/user" platform arch debug.

(** Whether the persisted value [v] is the date [d]: what the guard asserts,
    [d.getTime() === get()?.getTime()]. *)
Definition persisted_is (rt : Runtime) (v : option string) (d : Date) : bool :=
  match v with
  | Some (String _ _ as s) => num_strict_eq (getTime d) (getTime (Date_parse rt s))
  | _ => false
  end.

(** The number of prompts of a trace. *)
Definition prompts (tr : list Obs) : nat := List.length (filter is_prompt tr).

(** Reads of the persisted state, and the write that clears it. *)
Definition is_read (o : Obs) : bool :=
  match o with
  | OMementoGet _ _ => true
  | _ => false
  end.

Definition is_clearing (o : Obs) : bool :=
  match o with
  | OMementoUpdate _ None _ => true
  | _ => false
  end.

(** A prompt that the user answered with the button "Download now". *)
Definition accepted (o : Obs) : bool :=
  match o with
  | OAskInformationMessage _ _ (Some (Resolved (Some s))) => String.eqb s "Download now"
  | _ => false
  end.

(** What a user is asked about: a network call or an install. *)
Definition is_action (o : Obs) : bool := is_network o || is_install o.

(** The error of the guard's assertion. *)
Definition reinstalled_elsewhere : exn :=
  AssertionError "Other active VSCode instance has reinstalled the extension".

(** It is [t_now], the latest nightly is that of [t_latest], every call
    succeeds, and the user answers every prompt with "Cancel". *)
Definition declining (t_now t_latest : Z) : Example.Script :=
  Example.mkScript (Example.date t_now) (Some "Cancel") (Example.release t_latest)
    Example.nothing_broken.

(** A [globalState] whose updates fail. *)
Definition update_broken (X : Type) (op : Async X) : option exn :=
  match op with
  | MementoUpdate _ _ => Some (Rejection "EACCES")
  | _ => None
  end.

Definition failing_update (t_now t_latest : Z) : Example.Script :=
  Example.mkScript (Example.date t_now) (Some "Download now") (Example.release t_latest)
    update_broken.

(** * Properties *)

(** ** The calendar *)

Section Calendar.

Import ESDate.
Local Open Scope Z_scope.

Lemma DayFromYear_succ y : DayFromYear (y + 1) = DayFromYear y + DaysInYear y.
Proof.
  unfold DayFromYear, DaysInYear.
  destruct (Z.eqb_spec (y mod 4) 0), (Z.eqb_spec (y mod 100) 0), (Z.eqb_spec (y mod 400) 0);
    cbn [negb]; Z.div_mod_to_equations; lia.
Qed.

Lemma YearFromDay_spec d :
  DayFromYear (YearFromDay d) <= d < DayFromYear (YearFromDay d + 1).
Proof.
  unfold YearFromDay.
  set (y := 1970 + 400 * d / 146097).
  assert (H : DayFromYear (y - 1) <= d < DayFromYear (y + 2)).
  { unfold DayFromYear, y. Z.div_mod_to_equations; lia. }
  destruct (Z.ltb_spec d (DayFromYear y)).
  - replace (y - 1 + 1) with y by lia. lia.
  - destruct (Z.leb_spec (DayFromYear (y + 1)) d).
    + replace (y + 1 + 1) with (y + 2) by lia. lia.
    + lia.
Qed.

Lemma DayFromYear_mono y1 y2 : y1 <= y2 -> DayFromYear y1 <= DayFromYear y2.
Proof. unfold DayFromYear. intros. Z.div_mod_to_equations; lia. Qed.

Lemma YearFromDay_unique d y :
  DayFromYear y <= d < DayFromYear (y + 1) -> YearFromDay d = y.
Proof.
  intros H. pose proof (YearFromDay_spec d) as S.
  destruct (Z.lt_trichotomy (YearFromDay d) y) as [L | [E | G]]; [ | exact E | ].
  - pose proof (DayFromYear_mono (YearFromDay d + 1) y ltac:(lia)). lia.
  - pose proof (DayFromYear_mono (y + 1) (YearFromDay d) ltac:(lia)). lia.
Qed.

Lemma DaysInYear_leap y : DaysInYear y = 365 + LeapYear y.
Proof.
  unfold LeapYear, DaysInYear.
  destruct (y mod 4 =? 0), (y mod 100 =? 0), (y mod 400 =? 0); reflexivity.
Qed.

Lemma DayWithinYear_bounds t : 0 <= DayWithinYear t < 365 + InLeapYear t.
Proof.
  unfold DayWithinYear, InLeapYear, YearFromTime.
  pose proof (YearFromDay_spec (Day t)) as S.
  rewrite DayFromYear_succ, DaysInYear_leap in S. lia.
Qed.

Lemma LeapYear_01 y : LeapYear y = 0 \/ LeapYear y = 1.
Proof. unfold LeapYear. destruct (DaysInYear y =? 366); auto. Qed.

Lemma MakeDay_fields t :
  MakeDay (YearFromTime t) (MonthFromTime t) (DateFromTime t) = Day t.
Proof.
  pose proof (DayWithinYear_bounds t) as B.
  unfold MakeDay, DateFromTime, MonthFromTime, InLeapYear in *.
  destruct (LeapYear_01 (YearFromTime t)) as [L | L]; rewrite L in *;
  unfold DayWithinYear in *;
  set (d := Day t) in *; set (y := YearFromTime t) in *.
  all: repeat match goal with
       | |- context [ if ?a <? ?b then _ else _ ] => destruct (Z.ltb_spec a b)
       end;
       rewrite Z.div_small, Z.mod_small by lia;
       replace (y + 0) with y by lia; cbv beta iota delta [monthStart]; rewrite ?L; lia.
Qed.

Lemma MonthFromTime_range t : 0 <= MonthFromTime t <= 11.
Proof.
  unfold MonthFromTime.
  repeat match goal with
         | |- context [ if ?a <? ?b then _ else _ ] => destruct (a <? b)
         end; lia.
Qed.

Lemma DateFromTime_range t : 1 <= DateFromTime t <= 31.
Proof.
  pose proof (DayWithinYear_bounds t) as B.
  unfold DateFromTime, MonthFromTime, InLeapYear in *.
  destruct (LeapYear_01 (YearFromTime t)) as [L | L]; rewrite L in *;
  repeat match goal with
         | |- context [ if ?a <? ?b then _ else _ ] => destruct (Z.ltb_spec a b)
         end; lia.
Qed.

(** [YearFromTime] is what ECMA-262 asks for: the largest year that has
    begun at [t]. *)
Lemma YearFromTime_largest t :
  TimeFromYear (YearFromTime t) <= t /\
  forall y, TimeFromYear y <= t -> y <= YearFromTime t.
Proof.
  unfold TimeFromYear, YearFromTime, Day, msPerDay.
  pose proof (YearFromDay_spec (t / 86400000)) as S.
  split.
  - Z.div_mod_to_equations; lia.
  - intros y Hy.
    destruct (Z.le_gt_cases y (YearFromDay (t / 86400000))) as [ | G]; [ assumption | ].
    pose proof (DayFromYear_mono (YearFromDay (t / 86400000) + 1) y ltac:(lia)).
    Z.div_mod_to_equations; lia.
Qed.

(** The day that [MakeDay] finds is the first of the month asked for. *)
Lemma MakeDay_first_of_month ym mn :
  0 <= mn <= 11 ->
  let t := MakeDate (MakeDay ym mn 1) 0 in
  YearFromTime t = ym /\ MonthFromTime t = mn /\ DateFromTime t = 1.
Proof.
  intros Hmn t.
  assert (Hd : Day t = DayFromYear ym + monthStart mn (LeapYear ym)).
  { unfold t, MakeDate, MakeDay, Day, msPerDay.
    rewrite (Z.div_small mn 12), (Z.mod_small mn 12) by lia.
    rewrite (Z.add_0_r (_ * _)), Z.div_mul by lia.
    replace (ym + 0) with ym by lia. lia. }
  clearbody t.
  assert (Hm : 0 <= monthStart mn (LeapYear ym) < 365 + LeapYear ym).
  { destruct (LeapYear_01 ym) as [L | L]; rewrite L;
      assert (C : mn = 0 \/ mn = 1 \/ mn = 2 \/ mn = 3 \/ mn = 4 \/ mn = 5 \/ mn = 6
                  \/ mn = 7 \/ mn = 8 \/ mn = 9 \/ mn = 10 \/ mn = 11) by lia;
      repeat (destruct C as [C | C]); subst mn; cbv beta iota delta [monthStart]; lia. }
  assert (Hy : YearFromTime t = ym).
  { unfold YearFromTime. apply YearFromDay_unique.
    rewrite DayFromYear_succ, DaysInYear_leap. lia. }
  assert (Hw : DayWithinYear t = monthStart mn (LeapYear ym)).
  { unfold DayWithinYear. rewrite Hy. lia. }
  assert (Hmo : MonthFromTime t = mn).
  { unfold MonthFromTime, InLeapYear. rewrite Hw, Hy.
    destruct (LeapYear_01 ym) as [L | L]; rewrite L;
      assert (C : mn = 0 \/ mn = 1 \/ mn = 2 \/ mn = 3 \/ mn = 4 \/ mn = 5 \/ mn = 6
                  \/ mn = 7 \/ mn = 8 \/ mn = 9 \/ mn = 10 \/ mn = 11) by lia;
      repeat (destruct C as [C | C]); subst mn; reflexivity. }
  repeat split; try assumption.
  unfold DateFromTime, InLeapYear. rewrite Hmo, Hw, Hy.
  destruct (LeapYear_01 ym) as [L | L]; rewrite L;
    assert (C : mn = 0 \/ mn = 1 \/ mn = 2 \/ mn = 3 \/ mn = 4 \/ mn = 5 \/ mn = 6
                \/ mn = 7 \/ mn = 8 \/ mn = 9 \/ mn = 10 \/ mn = 11) by lia;
    repeat (destruct C as [C | C]); rewrite C; reflexivity.
Qed.

End Calendar.

(** ** [diffInHours] *)

Section DiffInHours.

Import ESDate.
Local Open Scope Z_scope.

Variable rt : Runtime.

Lemma TimeClip_in_range day :
  in_Date_range day -> TimeClip (MakeDate day 0) = Some (day * msPerDay).
Proof.
  unfold in_Date_range, TimeClip, MakeDate, msPerDay. intros H.
  rewrite Z.add_0_r.
  destruct (Z.gtb_spec (Z.abs (day * 86400000)) 8640000000000000); [ lia | reflexivity ].
Qed.

(** [Date.UTC] of the local calendar fields of [t] is the UTC midnight that
    begins the local day of [t]. *)
Lemma Date_UTC_local_fields t :
  let d := mkDate (Some t) in
  in_Date_range (local_day rt t) ->
  ~ two_digit_year (local_year rt t) ->
  Date_UTC (getFullYear rt d) (getMonth rt d) (getDate rt d)
  = Some (local_day rt t * msPerDay).
Proof.
  intros d R Y. unfold local_day, local_year, two_digit_year in *.
  unfold Date_UTC, getFullYear, getMonth, getDate, d. cbn [getTime option_map].
  destruct (Z.leb_spec 0 (YearFromTime (LocalTime rt t)));
    destruct (Z.leb_spec (YearFromTime (LocalTime rt t)) 99); cbn [andb]; try lia;
    rewrite MakeDay_fields; apply TimeClip_in_range; assumption.
Qed.

(** Whatever the year, [Date.UTC] of the local calendar fields of a time
    value in range is a number. *)
Lemma Date_UTC_local_fields_defined t :
  let d := mkDate (Some t) in
  in_Date_range (local_day rt t) ->
  exists day, Date_UTC (getFullYear rt d) (getMonth rt d) (getDate rt d)
              = Some (day * msPerDay).
Proof.
  intros d R.
  destruct (Z.leb_spec 0 (local_year rt t)) as [H0 | H0];
    [ destruct (Z.leb_spec (local_year rt t) 99) as [H9 | H9] | ].
  - (* a year from 0 to 99 *)
    unfold local_year in *.
    unfold Date_UTC, getFullYear, getMonth, getDate, d. cbn [getTime option_map].
    destruct (Z.leb_spec 0 (YearFromTime (LocalTime rt t))); [ | lia ].
    destruct (Z.leb_spec (YearFromTime (LocalTime rt t)) 99); [ | lia ].
    cbn [andb]. eexists. apply TimeClip_in_range.
    pose proof (MonthFromTime_range (LocalTime rt t)) as M.
    pose proof (DateFromTime_range (LocalTime rt t)) as D.
    unfold in_Date_range, MakeDay.
    rewrite (Z.div_small (MonthFromTime _) 12), (Z.mod_small (MonthFromTime _) 12) by lia.
    set (y := YearFromTime (LocalTime rt t)) in *.
    assert (Hm : 0 <= monthStart (MonthFromTime (LocalTime rt t)) (LeapYear (1900 + y + 0)) <= 335).
    { destruct (LeapYear_01 (1900 + y + 0)) as [L | L]; rewrite L;
        set (mn := MonthFromTime (LocalTime rt t)) in *;
        assert (C : mn = 0 \/ mn = 1 \/ mn = 2 \/ mn = 3 \/ mn = 4 \/ mn = 5 \/ mn = 6
                    \/ mn = 7 \/ mn = 8 \/ mn = 9 \/ mn = 10 \/ mn = 11) by lia;
        repeat (destruct C as [C | C]); rewrite C; cbv beta iota delta [monthStart]; lia. }
    pose proof (DayFromYear_mono 1900 (1900 + y + 0) ltac:(lia)) as Lo.
    pose proof (DayFromYear_mono (1900 + y + 0) 1999 ltac:(lia)) as Hi.
    change (DayFromYear 1900) with (-25567) in Lo.
    change (DayFromYear 1999) with 10592 in Hi. lia.
  - exists (local_day rt t). apply Date_UTC_local_fields; [ assumption | ].
    unfold two_digit_year. lia.
  - exists (local_day rt t). apply Date_UTC_local_fields; [ assumption | ].
    unfold two_digit_year. lia.
Qed.

(** The calendar fields are those of the local day. *)
Lemma local_fields_of_day ta tb :
  local_day rt ta = local_day rt tb ->
  let a := mkDate (Some ta) in
  let b := mkDate (Some tb) in
  getFullYear rt a = getFullYear rt b /\ getMonth rt a = getMonth rt b
  /\ getDate rt a = getDate rt b.
Proof.
  intros E a b. unfold local_day in E.
  unfold getFullYear, getMonth, getDate, a, b. cbn [getTime option_map].
  assert (Y : YearFromTime (LocalTime rt ta) = YearFromTime (LocalTime rt tb)).
  { unfold YearFromTime. now rewrite E. }
  assert (M : MonthFromTime (LocalTime rt ta) = MonthFromTime (LocalTime rt tb)).
  { unfold MonthFromTime, DayWithinYear, InLeapYear. now rewrite E, Y. }
  repeat split; try congruence.
  unfold DateFromTime, DayWithinYear, InLeapYear. now rewrite E, Y, M.
Qed.

(** The difference of two [Date.UTC] midnights is a whole number of hours:
    the division in [diffInHours] is exact. *)
Lemma utc_difference_whole_hours da db :
  (da * msPerDay - db * msPerDay) / (1000 * 60 * 60) = 24 * (da - db)
  /\ (da * msPerDay - db * msPerDay) mod (1000 * 60 * 60) = 0.
Proof. unfold msPerDay. Z.div_mod_to_equations; lia. Qed.

(** [diffInHours a b] is 24 hours for each calendar day from the local date
    of [b] to the local date of [a]. *)
Lemma diffInHours_of_local_days ta tb :
  in_Date_range (local_day rt ta) ->
  in_Date_range (local_day rt tb) ->
  local_day rt ta = local_day rt tb
  \/ (~ two_digit_year (local_year rt ta) /\ ~ two_digit_year (local_year rt tb)) ->
  diffInHours rt (mkDate (Some ta)) (mkDate (Some tb))
  = Some (24 * (local_day rt ta - local_day rt tb)).
Proof.
  intros Ra Rb [E | [Ya Yb]]; unfold diffInHours.
  - destruct (local_fields_of_day ta tb E) as (Y & M & D).
    rewrite Y, M, D.
    destruct (Date_UTC_local_fields_defined tb Rb) as [day Hday].
    rewrite Hday, E. cbn [num_sub num_div].
    now rewrite (proj1 (utc_difference_whole_hours day day)), !Z.sub_diag.
  - rewrite (Date_UTC_local_fields ta Ra Ya), (Date_UTC_local_fields tb Rb Yb).
    cbn [num_sub num_div].
    now rewrite (proj1 (utc_difference_whole_hours _ _)).
Qed.

(** C2, as the code has it: [diffInHours a b] counts the calendar days from
    the date of [b] to the date of [a] in the local time zone of the host,
    24 hours for each: 0 when both fall on the same local date, whatever
    their clock times, 24 when the local date of [a] is the day after that
    of [b], -24 when it is the day before.  The dates are within the range
    of [Date]; unless they are the same, neither local year is one of
    0..99, which [Date.UTC] reads as 1900..1999. *)
Theorem diffInHours_counts_local_days ta tb :
  in_Date_range (local_day rt ta) ->
  in_Date_range (local_day rt tb) ->
  local_day rt ta = local_day rt tb
  \/ (~ two_digit_year (local_year rt ta) /\ ~ two_digit_year (local_year rt tb)) ->
  diffInHours rt (mkDate (Some ta)) (mkDate (Some tb))
  = Some (24 * (local_day rt ta - local_day rt tb))
  /\ (local_day rt ta = local_day rt tb ->
      diffInHours rt (mkDate (Some ta)) (mkDate (Some tb)) = Some 0)
  /\ (local_day rt ta = local_day rt tb + 1 ->
      diffInHours rt (mkDate (Some ta)) (mkDate (Some tb)) = Some 24)
  /\ (local_day rt ta = local_day rt tb - 1 ->
      diffInHours rt (mkDate (Some ta)) (mkDate (Some tb)) = Some (-24)).
Proof.
  intros Ra Rb H. rewrite (diffInHours_of_local_days ta tb Ra Rb H).
  repeat split; intros E; f_equal; lia.
Qed.

End DiffInHours.

(** C2, witness: 23:30 UTC on 1 January 2020 and 00:30 UTC on the same day,
    on a host one hour ahead of UTC: the local dates are 2 and 1 January. *)
Lemma diffInHours_counts_local_days_witness :
  in_Date_range (local_day Example.ahead 1577921400000)
  /\ in_Date_range (local_day Example.ahead 1577838600000)
  /\ ~ two_digit_year (local_year Example.ahead 1577921400000)
  /\ ~ two_digit_year (local_year Example.ahead 1577838600000)
  /\ diffInHours Example.ahead (Example.date 1577921400000) (Example.date 1577838600000)
     = Some 24%Z.
Proof.
  assert (Ra : in_Date_range (local_day Example.ahead 1577921400000))
    by (unfold in_Date_range; vm_compute; split; discriminate).
  assert (Rb : in_Date_range (local_day Example.ahead 1577838600000))
    by (unfold in_Date_range; vm_compute; split; discriminate).
  assert (Ya : ~ two_digit_year (local_year Example.ahead 1577921400000))
    by (unfold two_digit_year; vm_compute; intros [_ H]; apply H; reflexivity).
  assert (Yb : ~ two_digit_year (local_year Example.ahead 1577838600000))
    by (unfold two_digit_year; vm_compute; intros [_ H]; apply H; reflexivity).
  refine (conj Ra (conj Rb (conj Ya (conj Yb _)))).
  apply (proj1 (proj2 (proj2 (diffInHours_counts_local_days Example.ahead
                                1577921400000 1577838600000 Ra Rb
                                (or_intror (conj Ya Yb)))))).
  reflexivity.
Defined.

(** C2, as stated, fails: two time values on the same UTC calendar date for
    which [diffInHours] is 24, on a host one hour ahead of UTC. *)
Lemma diffInHours_same_UTC_date_counterexample :
  ESDate.Day 1577921400000 = ESDate.Day 1577838600000
  /\ diffInHours Example.ahead
       (Example.date 1577921400000) (Example.date 1577838600000) <> Some 0%Z.
Proof. split; [ reflexivity | vm_compute; discriminate ]. Qed.

(** ** The release tag and the installed channel *)

Section ReleaseTag.

Local Open Scope string_scope.

Lemma span_digits_stops n c r :
  all_digits n = true -> is_digit c = false ->
  span_digits (n ++ String c r) = (n, String c r).
Proof.
  intros Hn Hc. induction n as [ | a n IH]; cbn [append span_digits].
  - now rewrite Hc.
  - cbn [all_digits] in Hn. apply andb_true_iff in Hn as [Ha Hn].
    now rewrite Ha, (IH Hn).
Qed.

Ltac explode s H :=
  repeat (destruct s as [ | ? s]; [ discriminate H | ]; cbn [String.length] in H;
          apply Nat.succ_inj in H);
  destruct s; [ clear H | discriminate H ].

Lemma match_realVersionRegexp_complete s yyyy mm dd :
  realVersion s yyyy mm dd ->
  match_realVersionRegexp s = Some (yyyy, mm, dd).
Proof.
  intros (n1 & n2 & rest & -> & N1 & D1 & N2 & D2 & Ly & Dy & Lm & Dm & Ld & Dd).
  unfold match_realVersionRegexp.
  change ("." ++ n2 ++ "." ++ yyyy ++ mm ++ dd ++ rest)
    with (String "." (n2 ++ String "." (yyyy ++ mm ++ dd ++ rest))).
  rewrite (span_digits_stops n1 "." _ D1 eq_refl).
  destruct n1 as [ | c1 n1]; [ congruence | ].
  rewrite (span_digits_stops n2 "." _ D2 eq_refl).
  destruct n2 as [ | c2 n2]; [ congruence | ].
  explode yyyy Ly. explode mm Lm. explode dd Ld.
  cbn [append substring String.length Nat.eqb andb].
  cbn [all_digits] in Dy, Dm, Dd |- *.
  repeat match goal with
         | H : _ && _ = true |- _ => apply andb_true_iff in H as [? H]
         end.
  repeat match goal with
         | H : is_digit _ = true |- _ => rewrite H; clear H
         end.
  cbn [andb]. destruct rest; reflexivity.
Qed.

Lemma span_digits_splits s :
  s = fst (span_digits s) ++ snd (span_digits s)
  /\ all_digits (fst (span_digits s)) = true.
Proof.
  induction s as [ | c s [IH1 IH2]]; [ split; reflexivity | ].
  cbn [span_digits]. destruct (is_digit c) eqn:Hc.
  - destruct (span_digits s) as [ds rest]. cbn [fst snd] in *.
    split; [ cbn [append]; now rewrite <- IH1 | cbn [all_digits]; now rewrite Hc, IH2 ].
  - split; reflexivity.
Qed.

Lemma substring_8_splits s :
  String.length (substring 0 8 s) = 8%nat ->
  exists rest,
    s = substring 0 4 (substring 0 8 s) ++ substring 4 2 (substring 0 8 s)
        ++ substring 6 2 (substring 0 8 s) ++ rest
    /\ String.length (substring 0 4 (substring 0 8 s)) = 4%nat
    /\ String.length (substring 4 2 (substring 0 8 s)) = 2%nat
    /\ String.length (substring 6 2 (substring 0 8 s)) = 2%nat
    /\ substring 0 8 s
       = substring 0 4 (substring 0 8 s) ++ substring 4 2 (substring 0 8 s)
         ++ substring 6 2 (substring 0 8 s).
Proof.
  do 8 (destruct s as [ | ? s]; [ discriminate | ]).
  intros _. exists s. cbn. destruct s; repeat split; reflexivity.
Qed.

Lemma all_digits_app a b :
  all_digits (a ++ b) = all_digits a && all_digits b.
Proof.
  induction a as [ | c a IH]; [ reflexivity | ].
  cbn [append all_digits]. now rewrite IH, andb_assoc.
Qed.

(** The matcher accepts nothing but what the regular expression accepts. *)
Lemma match_realVersionRegexp_sound s yyyy mm dd :
  match_realVersionRegexp s = Some (yyyy, mm, dd) -> realVersion s yyyy mm dd.
Proof.
  unfold match_realVersionRegexp.
  destruct (span_digits_splits s) as [S1 D1].
  destruct (span_digits s) as [n1 r1]. cbn [fst snd] in *.
  destruct n1 as [ | c1 n1]; [ discriminate | ].
  destruct r1 as [ | dot1 r2]; [ discriminate | ].
  destruct (Ascii.eqb_spec dot1 ".") as [-> | Hd];
    [ | destruct dot1 as [[ | ] [ | ] [ | ] [ | ] [ | ] [ | ] [ | ] [ | ]];
        try discriminate; now contradiction Hd ].
  destruct (span_digits_splits r2) as [S2 D2].
  destruct (span_digits r2) as [n2 r3]. cbn [fst snd] in *.
  destruct n2 as [ | c2 n2]; [ discriminate | ].
  destruct r3 as [ | dot2 r4]; [ discriminate | ].
  destruct (Ascii.eqb_spec dot2 ".") as [-> | Hd];
    [ | destruct dot2 as [[ | ] [ | ] [ | ] [ | ] [ | ] [ | ] [ | ] [ | ]];
        try discriminate; now contradiction Hd ].
  destruct (Nat.eqb_spec (String.length (substring 0 8 r4)) 8) as [L | ];
    [ | discriminate ].
  cbn [andb]. destruct (all_digits (substring 0 8 r4)) eqn:D; [ | discriminate ].
  intros [= <- <- <-].
  destruct (substring_8_splits r4 L) as (rest & S4 & Ly & Lm & Ld & S8).
  rewrite S8, !all_digits_app in D.
  apply andb_true_iff in D as [Dy D]. apply andb_true_iff in D as [Dm Dd].
  exists (String c1 n1), (String c2 n2), rest.
  repeat split; try assumption; try discriminate.
  rewrite S1, S2. cbn [append]. now rewrite <- S4.
Qed.

Lemma digit_is_not_n c : is_digit c = true -> Ascii.eqb c "n" = false.
Proof.
  intros H. destruct (Ascii.eqb_spec c "n") as [-> | ]; [ discriminate H | reflexivity ].
Qed.

(** C3: a version tag that ends in "nightly" gives the channel Nightly;
    any other tag of the form N.N.YYYYMMDD gives the channel Stable and the
    release tag YYYY-MM-DD. *)
Theorem channel_of_version_tag (version : string) (path : option string)
    (channel : UpdatesChannel) (ask : bool) (storage : string) :
  (endsWith version "nightly" = true ->
   exists config,
     Config_new version path channel ask storage = inr config
     /\ installedExtensionUpdateChannel config = Nightly)
  /\ (endsWith version "nightly" = false ->
      forall n1 n2 yyyy mm dd,
        version = n1 ++ "." ++ n2 ++ "." ++ yyyy ++ mm ++ dd ->
        n1 <> "" -> all_digits n1 = true ->
        n2 <> "" -> all_digits n2 = true ->
        String.length yyyy = 4%nat -> all_digits yyyy = true ->
        String.length mm = 2%nat -> all_digits mm = true ->
        String.length dd = 2%nat -> all_digits dd = true ->
        exists config,
          Config_new version path channel ask storage = inr config
          /\ installedExtensionUpdateChannel config = Stable
          /\ extensionReleaseTag config = yyyy ++ "-" ++ mm ++ "-" ++ dd).
Proof.
  split.
  - intros E. unfold Config_new, extensionReleaseTag_init, NIGHTLY_TAG.
    rewrite E. eexists. split; reflexivity.
  - intros E n1 n2 yyyy mm dd V N1 D1 N2 D2 Ly Dy Lm Dm Ld Dd.
    unfold Config_new, extensionReleaseTag_init, NIGHTLY_TAG. rewrite E.
    rewrite (match_realVersionRegexp_complete version yyyy mm dd).
    + eexists. split; [ reflexivity | ]. split; [ | reflexivity ].
      unfold installedExtensionUpdateChannel, NIGHTLY_TAG. cbn [extensionReleaseTag].
      destruct yyyy as [ | c yyyy]; [ discriminate Ly | ].
      cbn [all_digits] in Dy. apply andb_true_iff in Dy as [Dc _].
      cbn [append String.eqb]. now rewrite (digit_is_not_n c Dc).
    + exists n1, n2, "". rewrite V.
      replace (dd ++ "") with dd by (clear; induction dd; cbn; congruence).
      repeat split; assumption.
Qed.

End ReleaseTag.

(** C3, witness: the tags 0.2.20200309-nightly and 0.2.20200309. *)
Lemma channel_of_version_tag_witness :
  (exists config,
     Config_new "0.2.20200309-nightly" None Stable true "/storage" = inr config
     /\ installedExtensionUpdateChannel config = Nightly)
  /\ (exists config,
        Config_new "0.2.20200309" None Stable true "/storage" = inr config
        /\ installedExtensionUpdateChannel config = Stable
        /\ extensionReleaseTag config = "2020-03-09"%string).
Proof.
  split.
  - apply (proj1 (channel_of_version_tag "0.2.20200309-nightly" None Stable true "/storage")).
    reflexivity.
  - apply (proj2 (channel_of_version_tag "0.2.20200309" None Stable true "/storage")
             eq_refl "0" "2" "2020" "03" "09"); try reflexivity; discriminate.
Defined.

(** ** Runs *)

Section Runs.

Context {W : Type}.
Variable host : Host W.

Lemma run_bind {A B : Type} (p : Prog A) (f : A -> Prog B) e w :
  run host (bind p f) e w
  = let r := run host p e w in
    match outcome r with
    | Returned a => after (trace r) (run host (f a) (entered r) (world r))
    | Thrown err => mkRun (Thrown err) (trace r) (entered r) (world r)
    | Pending => mkRun Pending (trace r) (entered r) (world r)
    end.
Proof.
  revert e w. induction p as [a | err | X c k IH | X op k IH | k IH | b k IH]; intros e w;
    cbn.
  - unfold after. now destruct (run host (f a) e w).
  - reflexivity.
  - destruct (answer host c w) as [x w']. rewrite IH. cbn.
    now destruct (outcome (run host (k x) e w')).
  - destruct (settle host op w) as [[s | ] w']; [ | reflexivity ].
    rewrite IH. cbn. now destruct (outcome (run host (k s) e w')).
  - apply IH.
  - apply IH.
Qed.

Lemma run_try_catch {A : Type} (p : Prog A) (h : exn -> Prog A) e w :
  run host (try_catch p h) e w
  = let r := run host p e w in
    match outcome r with
    | Thrown err => after (trace r) (run host (h err) (entered r) (world r))
    | _ => r
    end.
Proof.
  revert e w. induction p as [a | err | X c k IH | X op k IH | k IH | b k IH]; intros e w;
    cbn.
  - reflexivity.
  - unfold after. now destruct (run host (h err) e w).
  - destruct (answer host c w) as [x w']. rewrite IH. cbn.
    now destruct (outcome (run host (k x) e w')).
  - destruct (settle host op w) as [[s | ] w']; [ | reflexivity ].
    rewrite IH. cbn. now destruct (outcome (run host (k s) e w')).
  - apply IH.
  - apply IH.
Qed.

Lemma run_finally_set_entered {A : Type} (p : Prog A) (b : bool) e w :
  run host (finally_set_entered p b) e w
  = let r := run host p e w in
    match outcome r with
    | Pending => r
    | o => mkRun o (trace r) b (world r)
    end.
Proof.
  revert e w. induction p as [a | err | X c k IH | X op k IH | k IH | b' k IH]; intros e w;
    cbn.
  - reflexivity.
  - reflexivity.
  - destruct (answer host c w) as [x w']. rewrite IH. cbn.
    now destruct (outcome (run host (k x) e w')).
  - destruct (settle host op w) as [[s | ] w']; [ | reflexivity ].
    rewrite IH. cbn. now destruct (outcome (run host (k s) e w')).
  - apply IH.
  - apply IH.
Qed.

(** A synchronous program makes no awaited call and always comes to an end. *)
Lemma run_synchronous {A : Type} (p : Prog A) e w :
  synchronous p ->
  let r := run host p e w in
  outcome r <> Pending
  /\ entered r = e
  /\ Forall (fun o => rejection o = None /\ is_restart o = false /\ is_write o = false
                      /\ is_network o = false /\ is_install o = false
                      /\ is_unlink o = false /\ is_prompt o = false) (trace r).
Proof.
  intros S. revert e w. induction S as [a | err | X c k _ IH]; intros e w; cbn [run].
  - repeat split; [ discriminate | constructor ].
  - repeat split; [ discriminate | constructor ].
  - destruct (answer host c w) as [x w']. specialize (IH x e w'). cbn zeta in IH.
    destruct IH as (O & E & F). cbn [observed outcome entered trace].
    repeat split; try assumption.
    constructor; [ | assumption ].
    destruct c; repeat split; reflexivity.
Qed.

End Runs.

(** ** The orchestrator *)

Section Decisions.

Context {W : Type}.
Variable host : Host W.
Variable rt : Runtime.
Variable onReentry : option exn.

#[local] Arguments diffInHours : simpl never.
#[local] Arguments String.append : simpl never.
#[local] Arguments installedNightlyExtensionReleaseDate : simpl never.

Ltac exec :=
  cbn [run bind call await try_catch finally_set_entered
       Storage_get Storage_set DateStorage_get DateStorage_set
       observed observe_call observe_async outcome trace entered world
       assert negb UpdatesChannel_eqb].

Ltac step :=
  match goal with
  | |- context [answer ?h ?c ?w] =>
      let x := fresh "x" in let w' := fresh "w" in
      destruct (answer h c w) as [x w'] eqn:?
  | |- context [settle ?h ?op ?w] =>
      let s := fresh "s" in let w' := fresh "w" in
      destruct (settle h op w) as [[[s | s] | ] w'] eqn:?
  end; exec.

(** C8: when the server comes from an explicit path, the orchestrator
    returns at once: it makes no call at all, so it shows no prompt, makes no
    network call, writes nothing to the persisted state and restarts nothing,
    whatever the installed and the desired channels are. *)
Theorem explicit_path_no_action (config : Config) (e : bool) (w : W) :
  isExplicitPath (serverSource rt config) = true ->
  run host (ensureProperExtensionVersion rt onReentry config) e w
  = mkRun (Returned tt) [] e w.
Proof.
  intros H. unfold ensureProperExtensionVersion. now rewrite H.
Qed.

(** C7: both channels Nightly and no persisted release date: the
    orchestrator reads the date, shows the error notification and throws;
    it makes no other call (no fetch, no install, no restart). *)
Theorem nightly_without_release_date_is_fatal (config : Config) (e : bool) (w : W) :
  isExplicitPath (serverSource rt config) = false ->
  installedExtensionUpdateChannel config = Nightly ->
  updatesChannel config = Nightly ->
  truthy (fst (answer host (MementoGet installedNightlyExtensionReleaseDate) w)) = false ->
  let r := run host (ensureProperExtensionVersion rt onReentry config) e w in
  outcome r = Thrown (Error "Nightly release date was not set in globalStorage")
  /\ trace r =
       [OMementoGet installedNightlyExtensionReleaseDate
          (fst (answer host (MementoGet installedNightlyExtensionReleaseDate) w));
        OLogDebug [LStr installedNightlyExtensionReleaseDate; LStr "==";
                   LOptStr (fst (answer host
                                   (MementoGet installedNightlyExtensionReleaseDate) w))];
        OShowErrorMessage
          ("Nightly release date must've been set during the installation. "
           ++ "Did you download and install the nightly .vsix package manually?")].
Proof.
  intros Hsrc Hcur Hdes Hnull r. subst r.
  unfold ensureProperExtensionVersion. rewrite Hsrc, Hcur, Hdes. exec.
  destruct (answer host (MementoGet installedNightlyExtensionReleaseDate) w) as [v w1].
  cbn [fst] in *. exec. step. rewrite Hnull. exec. step.
  split; reflexivity.
Qed.

(** C4: when the installed channel is Stable, the first thing the
    orchestrator does, whatever the desired channel is, is to set the
    persisted release date to null: the write (with the log line of
    [Storage.set]) comes before every other call. *)
Theorem stable_clears_release_date_first (config : Config) (e : bool) (w : W) :
  isExplicitPath (serverSource rt config) = false ->
  installedExtensionUpdateChannel config = Stable ->
  exists settled rest,
    trace (run host (ensureProperExtensionVersion rt onReentry config) e w)
    = OLogDebug [LStr installedNightlyExtensionReleaseDate; LStr "="; LOptStr None]
      :: OMementoUpdate installedNightlyExtensionReleaseDate None settled
      :: rest.
Proof.
  intros Hsrc Hcur.
  unfold ensureProperExtensionVersion. rewrite Hsrc, Hcur. exec.
  cbn [option_map]. step. step; eexists; eexists; reflexivity.
Qed.

End Decisions.

(** ** Prompts, the guard and exceptions *)

Section Updates.

Context {W : Type}.
Variable host : Host W.
Variable rt : Runtime.
Variable onReentry : option exn.

#[local] Arguments diffInHours : simpl never.
#[local] Arguments String.append : simpl never.
#[local] Arguments installedNightlyExtensionReleaseDate : simpl never.

Ltac exec :=
  cbn [run bind call await try_catch finally_set_entered
       Storage_get Storage_set DateStorage_get DateStorage_set
       observed observe_call observe_async outcome trace entered world
       assert negb UpdatesChannel_eqb option_map].

Lemma is_prompt_observe_async X (op : Async X) r :
  is_prompt (observe_async op r) = is_ask op.
Proof. now destruct op. Qed.

Lemma is_prompt_observe_call X (c : Call X) x : is_prompt (observe_call c x) = false.
Proof. now destruct c. Qed.

Lemma run_prompt_free {A : Type} (p : Prog A) e w :
  prompt_free p -> none_of is_prompt (trace (run host p e w)) = true.
Proof.
  intros F. revert e w.
  induction F as [a | err | X c k _ IH | X op k Hop _ IH | k _ IH | b k _ IH]; intros e w;
    cbn [run]; try reflexivity; auto.
  - destruct (answer host c w) as [x w']. specialize (IH x e w').
    unfold none_of in *. cbn. now rewrite is_prompt_observe_call.
  - destruct (settle host op w) as [[s | ] w'].
    + specialize (IH s e w'). unfold none_of in *. cbn.
      now rewrite is_prompt_observe_async, Hop.
    + unfold none_of. cbn. now rewrite is_prompt_observe_async, Hop.
Qed.

Lemma same_but_prompts_refl {A : Type} (r : Run A W) :
  none_of is_prompt (trace r) = true -> same_but_prompts r r.
Proof.
  intros H. repeat split; try assumption.
  unfold none_of, without_prompts in *. apply negb_true_iff in H.
  induction (trace r) as [ | o tr IH]; [ reflexivity | ].
  cbn in *. apply orb_false_iff in H as [Ho Htr]. rewrite Ho. cbn. now rewrite <- IH.
Qed.

Lemma same_but_prompts_observed {A : Type} (o : Obs) (r r' : Run A W) :
  is_prompt o = false ->
  same_but_prompts r r' -> same_but_prompts (observed o r) (observed o r').
Proof.
  intros Ho (N & O & T & E & Wd). unfold same_but_prompts, none_of, without_prompts in *.
  cbn. rewrite Ho. cbn. repeat split; try assumption. now rewrite T.
Qed.

Lemma same_but_prompts_asked {A : Type} msg items s (r r' : Run A W) :
  same_but_prompts r r' ->
  same_but_prompts r (observed (OAskInformationMessage msg items s) r').
Proof.
  intros (N & O & T & E & Wd). repeat split; assumption.
Qed.

Lemma prompt_free_tryDownloadNightlyExtension config guard :
  (forall info, prompt_free (guard info)) ->
  prompt_free (tryDownloadNightlyExtension rt onReentry config guard).
Proof.
  intros G.
  assert (B : forall (A B : Type) (p : Prog A) (f : A -> Prog B) h b,
             prompt_free p ->
             (forall a, prompt_free (finally_set_entered (try_catch (f a) h) b)) ->
             (forall err, prompt_free (finally_set_entered (h err) b)) ->
             prompt_free (finally_set_entered (try_catch (bind p f) h) b)).
  { intros A B p f h b F Hf Hh.
    induction F; cbn [bind try_catch finally_set_entered]; auto; constructor; auto. }
  unfold tryDownloadNightlyExtension, notReentrant, tryDownloadNightlyExtension_fn.
  constructor. intros [ | ].
  - destruct onReentry; constructor.
  - constructor. exec. constructor; [ reflexivity | ].
    intros [info | err]; exec; [ | repeat constructor ].
    apply B; [ apply G | | intros; repeat constructor ].
    intros ok. destruct ok; exec; [ | repeat constructor ].
    repeat first
      [ progress exec
      | match goal with
        | x : Empty_set |- _ => destruct x
        | |- prompt_free (Await _ _) => constructor; [ reflexivity | intros [ ? | ? ] ]
        | |- prompt_free (Do _ _) => constructor; intros ?
        | |- prompt_free _ => constructor
        end ].
Qed.

Lemma prompt_free_shouldDownload_outdated date info :
  prompt_free (shouldDownload_outdated rt date info).
Proof.
  unfold shouldDownload_outdated. exec. constructor. intros v. constructor. intros _.
  destruct (truthy v), v; cbn [option_map bind]; 
    repeat match goal with
           | |- context [num_strict_eq ?a ?b] => destruct (num_strict_eq a b)
           end; exec; repeat constructor.
Qed.

(** When [updates.askBeforeDownload] is false the orchestrator does what it
    does, with the option set, for a user who answers every prompt with
    "Download now": the same calls with the same answers, but for the
    prompts, and the same end. *)
Lemma not_asking_same_but_prompts (config : Config) (e : bool) (w : W) :
  askBeforeDownload config = false ->
  (forall msg items w',
     settle host (AskInformationMessage msg items) w'
     = (Some (Resolved (Some "Download now"%string)), w')) ->
  same_but_prompts
    (run host (ensureProperExtensionVersion rt onReentry config) e w)
    (run host (ensureProperExtensionVersion rt onReentry
                 (with_askBeforeDownload config true)) e w).
Proof.
  intros Hask Haccept.
  destruct config as [v t sp ch ask st]. cbn [askBeforeDownload] in Hask. subst ask.
  unfold with_askBeforeDownload, ensureProperExtensionVersion,
    askToDownloadProperExtensionVersion.
  cbn [askBeforeDownload updatesChannel packageJsonVersion extensionReleaseTag serverPath
       globalStoragePath].
  change (serverSource rt (mkConfig v t sp ch true st))
    with (serverSource rt (mkConfig v t sp ch false st)).
  change (installedExtensionUpdateChannel (mkConfig v t sp ch true st))
    with (installedExtensionUpdateChannel (mkConfig v t sp ch false st)).
  change (tryDownloadNightlyExtension rt onReentry (mkConfig v t sp ch true st))
    with (tryDownloadNightlyExtension rt onReentry (mkConfig v t sp ch false st)).
  destruct (isExplicitPath _); [ now apply same_but_prompts_refl | ].
  destruct (installedExtensionUpdateChannel _), ch; exec.
  all: repeat first
    [ progress exec
    | rewrite Haccept
    | rewrite String.eqb_refl
    | match goal with
      | x : Empty_set |- _ => destruct x
      | |- same_but_prompts (observed ?o _) (observed ?o _) =>
          apply same_but_prompts_observed; [ reflexivity | ]
      | |- same_but_prompts _ (observed (OAskInformationMessage _ _ _) _) =>
          apply same_but_prompts_asked
      | |- same_but_prompts (run _ (tryDownloadNightlyExtension _ _ _ _) _ _) _ =>
          apply same_but_prompts_refl, run_prompt_free,
            prompt_free_tryDownloadNightlyExtension; intros;
          first [ apply prompt_free_shouldDownload_outdated | constructor ]
      | |- same_but_prompts (mkRun _ _ _ _) (mkRun _ _ _ _) =>
          apply same_but_prompts_refl; reflexivity
      | |- context [answer ?h ?c ?w] =>
          let x := fresh "x" in let w' := fresh "w" in
          destruct (answer h c w) as [x w']
      | |- context [settle ?h ?op ?w] =>
          let s := fresh "s" in let w' := fresh "w" in
          destruct (settle h op w) as [[[s | s] | ] w']
      | |- context [truthy ?v] => destruct v as [ [ | ? ? ] | ]; cbn [truthy]
      | |- context [num_lt ?a ?b] => destruct (num_lt a b)
      end ].
Qed.


(** One step of a run whose host is arbitrary: by cases on what the host
    answers and on the tests of the orchestrator. *)
Ltac by_cases :=
  match goal with
  | x : Empty_set |- _ => destruct x
  | |- context [answer ?h ?c ?w] =>
      let x := fresh "x" in let w' := fresh "w" in
      destruct (answer h c w) as [x w']
  | |- context [settle ?h ?op ?w] =>
      let s := fresh "s" in let w' := fresh "w" in
      destruct (settle h op w) as [[[s | s] | ] w']
  | |- context [truthy ?v] => destruct v as [ [ | ? ? ] | ]; cbn [truthy]
  | |- context [num_lt ?a ?b] => destruct (num_lt a b) eqn:?
  | |- context [num_strict_eq ?a ?b] => destruct (num_strict_eq a b)
  end; exec.

Ltac claim r :=
  pattern r; match goal with |- ?P r => set (Claim := P) end; subst r.

Ltac membership H :=
  repeat match type of H with
         | In _ (_ :: _) => destruct H as [H | H]; [ try discriminate H | ]
         | In _ [] => destruct H
         end.

(** With the option off the orchestrator shows no prompt and takes, on
    each path on which it would ask, the action that follows the prompt. *)
Lemma not_asking_takes_the_action (config : Config) (e : bool) (w : W) :
  askBeforeDownload config = false ->
  let r := run host (ensureProperExtensionVersion rt onReentry config) e w in
  none_of is_prompt (trace r) = true
  /\ (isExplicitPath (serverSource rt config) = false ->
      (installedExtensionUpdateChannel config = Nightly ->
       updatesChannel config = Stable ->
       exists res rest, trace r = OVscodeReinstallExtension extensionId res :: rest)
      /\ (installedExtensionUpdateChannel config = Stable ->
          updatesChannel config = Nightly -> e = false ->
          In (OMementoUpdate installedNightlyExtensionReleaseDate None
                (Some (Resolved tt))) (trace r) ->
          exists res,
            In (OFetchArtifactReleaseInfo (mkRepo "rust-analyzer" "rust-analyzer")
                  "rust-analyzer.vsix" "nightly" res) (trace r))
      /\ (installedExtensionUpdateChannel config = Nightly ->
          updatesChannel config = Nightly -> e = false ->
          forall hours date dateNow,
            In (OLogDebug [LStr "Current rust-analyzer nightly was downloaded";
                           LNum hours; LStr "hours ago, namely:"; LDate date;
                           LStr "and now is"; LDate dateNow]) (trace r) ->
            num_lt hours HEURISTIC_NIGHTLY_RELEASE_PERIOD_IN_HOURS = false ->
            exists res,
              In (OFetchArtifactReleaseInfo (mkRepo "rust-analyzer" "rust-analyzer")
                    "rust-analyzer.vsix" "nightly" res) (trace r))).
Proof.
  intros Hask r. subst r.
  destruct (isExplicitPath (serverSource rt config)) eqn:Hsrc.
  { unfold ensureProperExtensionVersion. rewrite Hsrc.
    split; [ reflexivity | discriminate ]. }
  destruct (installedExtensionUpdateChannel config) eqn:Hcur,
    (updatesChannel config) eqn:Hdes, e, onReentry.
  all: match goal with |- context [run ?h ?p ?e ?w] => set (r := run h p e w) end;
    claim r.
  all: unfold ensureProperExtensionVersion, askToDownloadProperExtensionVersion,
    tryDownloadNightlyExtension, notReentrant, tryDownloadNightlyExtension_fn,
    shouldDownload_default, shouldDownload_outdated.
  all: rewrite Hsrc, Hcur, Hdes, Hask; exec.
  all: repeat by_cases.
  all: subst Claim; cbn beta; cbn [observed trace outcome].
  all: (split; [ reflexivity | intros _ ]).
  all: (split; [ | split ]); intros; try discriminate.
  all: try (eexists; eexists; reflexivity).
  all: match goal with
       | H : In _ _ |- _ =>
           membership H;
           try (injection H as <- _ _; congruence);
           eexists; repeat first [ left; reflexivity | right ]
       end.
Qed.

(** C10: when [updates.askBeforeDownload] is false,
    [askToDownloadProperExtensionVersion] answers true at once, without a
    call, and the orchestrator shows no prompt.  On each path on which it
    would ask, it goes on to the action that follows an accepted prompt: the
    reinstall of the extension when a nightly build goes back to stable, and
    the fetch of the nightly release info when a stable build goes to
    nightly (once the release date is cleared) or when the installed nightly
    is found 25 hours old or more.  And it does exactly what it does, with
    the option set, for a user who answers every prompt with "Download now":
    the same calls with the same answers, but for the prompts, and the same
    end. *)
Theorem not_asking_is_accepting (config : Config) (e : bool) (w : W) :
  askBeforeDownload config = false ->
  let r := run host (ensureProperExtensionVersion rt onReentry config) e w in
  (forall reason e' w',
     run host (askToDownloadProperExtensionVersion config reason) e' w'
     = mkRun (Returned true) [] e' w')
  /\ none_of is_prompt (trace r) = true
  /\ (isExplicitPath (serverSource rt config) = false ->
      (installedExtensionUpdateChannel config = Nightly ->
       updatesChannel config = Stable ->
       exists res rest, trace r = OVscodeReinstallExtension extensionId res :: rest)
      /\ (installedExtensionUpdateChannel config = Stable ->
          updatesChannel config = Nightly -> e = false ->
          In (OMementoUpdate installedNightlyExtensionReleaseDate None
                (Some (Resolved tt))) (trace r) ->
          exists res,
            In (OFetchArtifactReleaseInfo (mkRepo "rust-analyzer" "rust-analyzer")
                  "rust-analyzer.vsix" "nightly" res) (trace r))
      /\ (installedExtensionUpdateChannel config = Nightly ->
          updatesChannel config = Nightly -> e = false ->
          forall hours date dateNow,
            In (OLogDebug [LStr "Current rust-analyzer nightly was downloaded";
                           LNum hours; LStr "hours ago, namely:"; LDate date;
                           LStr "and now is"; LDate dateNow]) (trace r) ->
            num_lt hours HEURISTIC_NIGHTLY_RELEASE_PERIOD_IN_HOURS = false ->
            exists res,
              In (OFetchArtifactReleaseInfo (mkRepo "rust-analyzer" "rust-analyzer")
                    "rust-analyzer.vsix" "nightly" res) (trace r)))
  /\ ((forall msg items w',
         settle host (AskInformationMessage msg items) w'
         = (Some (Resolved (Some "Download now"%string)), w')) ->
      same_but_prompts r
        (run host (ensureProperExtensionVersion rt onReentry
                     (with_askBeforeDownload config true)) e w)).
Proof.
  intros Hask r.
  destruct (not_asking_takes_the_action config e w Hask) as [NoPrompt Action].
  split; [ | split; [ exact NoPrompt | split; [ exact Action | ] ] ].
  - intros reason e' w'. unfold askToDownloadProperExtensionVersion. rewrite Hask.
    reflexivity.
  - intros Haccept. exact (not_asking_same_but_prompts config e w Hask Haccept).
Qed.

Lemma num_strict_eq_right_refl a b :
  num_strict_eq a b = true -> num_strict_eq b b = true.
Proof.
  destruct a, b; cbn; try discriminate. intros _. apply Z.eqb_refl.
Qed.

(** Use a hypothesis [In x l] for a list [l] given element by element. *)
Ltac use_In H :=
  cbn [In] in H;
  repeat (destruct H as [H | H]; [ try discriminate H | ]);
  try contradiction H.

Ltac pick := repeat first [ left; reflexivity | right ].

(** Split a hypothesis [In x l] along the conses and appends of [l]. *)
Ltac in_cases H :=
  repeat match type of H with
         | False => contradiction H
         | In _ [] => contradiction H
         | In _ (_ :: _) => destruct H as [H | H]
         | In _ (_ ++ _) => apply in_app_or in H; destruct H as [H | H]
         end.

Ltac step :=
  match goal with
  | x : Empty_set |- _ => destruct x
  | |- context [answer ?h ?c ?w] =>
      let x := fresh "x" in let w' := fresh "w" in
      destruct (answer h c w) as [x w']
  | |- context [settle ?h ?op ?w] =>
      let s := fresh "s" in let w' := fresh "w" in
      destruct (settle h op w) as [[[s | s] | ] w']
  | |- context [truthy ?v] => destruct v as [ [ | ? ? ] | ]; cbn [truthy]
  | |- context [num_lt ?a ?b] => destruct (num_lt a b)
  | |- context [num_strict_eq ?a ?b] => destruct (num_strict_eq a b) eqn:?
  | |- context [String.eqb ?a ?b] => destruct (String.eqb_spec a b)
  | |- context [if ?b then _ else _] => destruct b
  | |- context [match ?b with Some _ => _ | None => _ end] => destruct b
  end; exec.

(** C6: installed and desired channel Nightly, the user accepts the prompt,
    and the release that was fetched has the persisted release date (the
    persisted value being the same each time it is read): the guard returns
    false, the procedure returns, the informational message is shown, and
    there is no download, no install, no write to the persisted state and
    no restart. *)
Theorem up_to_date_nightly_is_left_alone (config : Config) (e : bool) (w : W) :
  isExplicitPath (serverSource rt config) = false ->
  installedExtensionUpdateChannel config = Nightly ->
  updatesChannel config = Nightly ->
  let r := run host (ensureProperExtensionVersion rt onReentry config) e w in
  forall msg items repo file tag info stored,
    In (OAskInformationMessage msg items (Some (Resolved (Some "Download now"%string))))
       (trace r) ->
    In (OFetchArtifactReleaseInfo repo file tag (Some (Resolved info))) (trace r) ->
    (forall v, In (OMementoGet installedNightlyExtensionReleaseDate v) (trace r) ->
               v = Some stored) ->
    num_strict_eq (getTime (releaseDate info)) (getTime (Date_parse rt stored)) = true ->
    outcome r = Returned tt
    /\ In (OShowInformationMessage up_to_date_message) (trace r)
    /\ none_of is_download (trace r) = true
    /\ none_of is_install (trace r) = true
    /\ none_of is_write (trace r) = true
    /\ none_of is_restart (trace r) = true.
Proof.
  intros Hsrc Hcur Hdes r.
  pattern r. match goal with |- ?P r => set (Claim := P) end. subst r.
  unfold ensureProperExtensionVersion, askToDownloadProperExtensionVersion,
    tryDownloadNightlyExtension, notReentrant, tryDownloadNightlyExtension_fn,
    shouldDownload_outdated.
  rewrite Hsrc, Hcur, Hdes. exec.
  repeat step.
  all: subst Claim; cbn beta;
    intros msg items repo file tag info stored Hask Hfetch Hget Heq;
    cbn [observed trace outcome] in *.
  all: use_In Hask.
  all: use_In Hfetch.
  all: injection Hfetch as ? ? ? ?; subst.
  all: repeat match type of Heq with
       | context [Date_parse _ ?st] =>
           match type of Hget with
           | context [OMementoGet ?k ?v] =>
               tryif constr_eq v (Some st) then fail
               else (let E := fresh "E" in
                     assert (E : v = Some st) by (apply Hget; cbn [In]; pick);
                     first [ discriminate E | injection E as E; subst ])
           end
       end.
  all: try congruence.
  all: try (apply num_strict_eq_right_refl in Heq; congruence).
  split; [ reflexivity | ].
  split; [ unfold up_to_date_message; cbn [In]; pick | ].
  repeat split; reflexivity.
Qed.

(** The update of an installed nightly is only ever offered when the
    persisted release date is two days or more AHEAD of the clock: for a
    release date in the past, however old, [diffInHours] is not positive and
    the orchestrator returns before the prompt. *)
Lemma nightly_behind_the_clock_is_not_updated (config : Config) (e : bool) (w : W)
    (stored : string) (released now : Z) :
  isExplicitPath (serverSource rt config) = false ->
  installedExtensionUpdateChannel config = Nightly ->
  updatesChannel config = Nightly ->
  fst (answer host (MementoGet installedNightlyExtensionReleaseDate) w) = Some stored ->
  stored <> ""%string ->
  getTime (Date_parse rt stored) = Some released ->
  (forall w', getTime (fst (answer host NewDate w')) = Some now) ->
  in_Date_range (local_day rt released) ->
  in_Date_range (local_day rt now) ->
  local_day rt released = local_day rt now
  \/ (~ two_digit_year (local_year rt released) /\ ~ two_digit_year (local_year rt now)) ->
  (local_day rt released <= local_day rt now + 1)%Z ->
  let r := run host (ensureProperExtensionVersion rt onReentry config) e w in
  outcome r = Returned tt
  /\ none_of is_prompt (trace r) = true
  /\ none_of is_network (trace r) = true
  /\ none_of is_restart (trace r) = true.
Proof.
  intros Hsrc Hcur Hdes Hget Hne Hrel Hnow Rr Rn Hy Hle r. subst r.
  unfold ensureProperExtensionVersion. rewrite Hsrc, Hcur, Hdes. exec.
  destruct (answer host (MementoGet installedNightlyExtensionReleaseDate) w) as [v w1].
  cbn [fst] in Hget. subst v. exec.
  destruct (answer host (LogDebug _) w1) as [[] w2]. exec.
  destruct stored as [ | c stored]; [ congruence | ]. cbn [truthy]. exec.
  specialize (Hnow w2).
  destruct (answer host NewDate w2) as [[tn] w3]. cbn [fst getTime] in Hnow. subst tn.
  exec.
  destruct (answer host (LogDebug _) w3) as [[] w4]. exec.
  destruct (Date_parse rt (String c stored)) as [tr]. cbn [getTime] in Hrel. subst tr.
  rewrite (diffInHours_of_local_days rt released now Rr Rn Hy).
  unfold num_lt, HEURISTIC_NIGHTLY_RELEASE_PERIOD_IN_HOURS.
  destruct (Z.ltb_spec (24 * (local_day rt released - local_day rt now)) 25); [ | lia ].
  exec. repeat split.
Qed.

(** *** Exceptions in the fetch and install procedure *)

Lemma run_synchronous_first {A B : Type} (p : Prog A) (f : A -> Prog B) h b e w :
  synchronous p ->
  run host (finally_set_entered (try_catch (bind p f) h) b) e w
  = let r := run host p e w in
    match outcome r with
    | Returned a =>
        after (trace r) (run host (finally_set_entered (try_catch (f a) h) b) e (world r))
    | Thrown err =>
        after (trace r) (run host (finally_set_entered (h err) b) e (world r))
    | Pending => mkRun Pending (trace r) e (world r)
    end.
Proof.
  intros S. revert e w. induction S as [a | err | X c k _ IH]; intros e w;
    cbn [bind try_catch finally_set_entered].
  - cbn. unfold after. now destruct (run host _ e w).
  - cbn. unfold after. now destruct (run host _ e w).
  - cbn [run]. destruct (answer host c w) as [x w']. rewrite IH. cbn.
    destruct (outcome (run host (k x) e w')); reflexivity.
Qed.

Lemma none_of_app f (a b : list Obs) :
  none_of f (a ++ b) = none_of f a && none_of f b.
Proof. unfold none_of. now rewrite existsb_app, negb_orb. Qed.

Lemma none_of_cons f o (l : list Obs) :
  none_of f (o :: l) = negb (f o) && none_of f l.
Proof. unfold none_of. cbn. now rewrite negb_orb. Qed.

Lemma quiet_no_restart tr : quiet tr -> none_of is_restart tr = true.
Proof.
  induction 1 as [ | o tr (_ & H & _) _ IH]; [ reflexivity | ].
  now rewrite none_of_cons, H, IH.
Qed.

Lemma quiet_no_rejection tr o err : quiet tr -> In o tr -> rejection o <> Some err.
Proof.
  intros Q Hin. unfold quiet in Q. rewrite Forall_forall in Q.
  destruct (Q o Hin) as (H & _). congruence.
Qed.

(** C5: an invocation of the fetch and install procedure (none being in
    flight) never rejects.  When an awaited call of the procedure is rejected
    with [err] (the fetch of the release info, the download, the install, the
    write of the release date, the deletion of the file, or the reload
    itself), or when the guard throws [err], the procedure returns normally
    after logging [err] with "nightly extension" and the name of the
    repository; no reload of the window is asked for, unless it is the reload
    that was rejected. *)
Theorem tryDownloadNightlyExtension_catches (config : Config)
    (guard : ArtifactReleaseInfo -> Prog bool) (w : W) :
  (forall info, synchronous (guard info)) ->
  let source := nightlyVsixSource config in
  let logged err := OLogDownloadError err "nightly extension" "rust-analyzer" in
  let r := run host (tryDownloadNightlyExtension rt onReentry config guard) false w in
  (forall err, outcome r <> Thrown err)
  /\ (forall o err,
        In o (trace r) -> rejection o = Some err ->
        outcome r = Returned tt
        /\ In (logged err) (trace r)
        /\ (is_restart o = false -> none_of is_restart (trace r) = true))
  /\ (forall info w' err,
        settle host (FetchArtifactReleaseInfo (repo source) (file source) (tag source)) w
        = (Some (Resolved info), w') ->
        outcome (run host (guard info) true w') = Thrown err ->
        outcome r = Returned tt
        /\ In (logged err) (trace r)
        /\ none_of is_restart (trace r) = true).
Proof.
  intros G source logged r.
  pattern r. match goal with |- ?P r => set (Claim := P) end. subst r.
  unfold tryDownloadNightlyExtension, notReentrant, tryDownloadNightlyExtension_fn.
  fold source. exec.
  destruct (settle host (FetchArtifactReleaseInfo _ _ _) w) as [[[info | err] | ] w1] eqn:F;
    exec.
  - rewrite (run_synchronous_first _ _ _ _ _ _ (G info)).
    pose proof (run_synchronous host (guard info) true w1 (G info)) as Q.
    destruct (run host (guard info) true w1) as [o tr e' w2] eqn:R.
    cbn [outcome trace entered world] in *. destruct Q as (NP & _ & Q).
    fold (quiet tr) in Q.
    destruct o as [[ | ] | err | ]; [ | | | contradiction ]; exec.
    all: repeat step.
    all: subst Claim; cbn beta; cbn [observed after trace outcome app].
    all: repeat match goal with x : unit |- _ => destruct x end.
    all: (split; [ intros ?; discriminate | ]).
    all: split;
      [ intros o err' Hin Hrej; in_cases Hin;
        first [ now destruct (quiet_no_rejection tr o err' Q Hin)
              | subst o; cbn [rejection] in Hrej;
                first [ discriminate Hrej | injection Hrej as <- ] ];
        (split; [ | split; [ | intros Hr; try discriminate Hr ] ])
      | intros info0 w' err' Hs Hg; injection Hs as <- <-; rewrite R in Hg;
        cbn [outcome] in Hg; first [ discriminate Hg | injection Hg as <- ];
        (split; [ | split ]) ].
    all: first
      [ reflexivity
      | solve [ right; apply in_or_app; right; cbn [In]; pick ]
      | rewrite none_of_cons, none_of_app, (quiet_no_restart tr Q); reflexivity ].
  - step. subst Claim; cbn beta; cbn [observed trace outcome].
    split; [ intros ?; discriminate | ].
    split.
    + intros o err' Hin Hrej. in_cases Hin; subst o; cbn [rejection] in Hrej;
        first [ discriminate Hrej | injection Hrej as <- ].
      destruct x. split; [ reflexivity | ]. split; [ cbn [In]; pick | reflexivity ].
    + intros info0 w' err' Hs. discriminate Hs.
  - subst Claim; cbn beta; cbn [observed trace outcome].
    split; [ intros ?; discriminate | ].
    split.
    + intros o err' Hin Hrej. in_cases Hin; subst o; discriminate Hrej.
    + intros info0 w' err' Hs. discriminate Hs.
Qed.

End Updates.

(** ** The properties on concrete runs *)

Section Examples.

Import Example.

(** C1, on the code: the installed nightly was released on 1 March 2020 and
    it is now 3 March 2020 (UTC host): 48 hours have passed, which is more
    than the 25 of the heuristic, but [diffInHours] is given the release
    date first and yields -48, so the orchestrator returns without a
    prompt and without a network call. *)
Theorem outdated_nightly_is_not_updated :
  isExplicitPath (serverSource utc (nightly_config true Nightly)) = false
  /\ installedExtensionUpdateChannel (nightly_config true Nightly) = Nightly
  /\ diffInHours utc (date march3) (date march1) = Some 48%Z
  /\ diffInHours utc (date march1) (date march3) = Some (-48)%Z
  /\ outcome (orchestrate (accepting march3 march5) (nightly_config true Nightly)
                (Some (toString (date march1)))) = Returned tt
  /\ none_of is_prompt
       (trace (orchestrate (accepting march3 march5) (nightly_config true Nightly)
                 (Some (toString (date march1))))) = true
  /\ none_of is_network
       (trace (orchestrate (accepting march3 march5) (nightly_config true Nightly)
                 (Some (toString (date march1))))) = true
  /\ none_of is_restart
       (trace (orchestrate (accepting march3 march5) (nightly_config true Nightly)
                 (Some (toString (date march1))))) = true.
Proof. vm_compute. repeat split. Qed.

(** C8, witness: a server path in the configuration. *)
Lemma explicit_path_no_action_witness :
  isExplicitPath
    (serverSource utc
       (mkConfig "0.2.20200301-nightly" "nightly" (Some "~/bin/rust-analyzer"%string)
          Stable true "/storage")) = true
  /\ orchestrate (accepting march3 march5)
       (mkConfig "0.2.20200301-nightly" "nightly" (Some "~/bin/rust-analyzer"%string)
          Stable true "/storage")
       (Some "1583020800000"%string)
     = mkRun (Returned tt) [] false (Some "1583020800000"%string).
Proof.
  split; [ reflexivity | ].
  apply (explicit_path_no_action (scripted (accepting march3 march5)) utc (Some reentered)).
  reflexivity.
Defined.

(** C7, witness: a nightly build, nothing in the storage. *)
Lemma nightly_without_release_date_is_fatal_witness :
  outcome (orchestrate (accepting march3 march5) (nightly_config true Nightly) None)
  = Thrown (Error "Nightly release date was not set in globalStorage")
  /\ trace (orchestrate (accepting march3 march5) (nightly_config true Nightly) None)
     = [OMementoGet installedNightlyExtensionReleaseDate None;
        OLogDebug [LStr installedNightlyExtensionReleaseDate; LStr "=="; LOptStr None];
        OShowErrorMessage
          ("Nightly release date must've been set during the installation. "
           ++ "Did you download and install the nightly .vsix package manually?")].
Proof.
  exact (nightly_without_release_date_is_fatal (scripted (accepting march3 march5))
           utc (Some reentered) (nightly_config true Nightly) false None
           eq_refl eq_refl eq_refl eq_refl).
Defined.

(** C4, witness: a stable build for which the nightly channel is desired. *)
Lemma stable_clears_release_date_first_witness :
  exists settled rest,
    trace (orchestrate (accepting march3 march5) (stable_config true Nightly)
             (Some "1583020800000"%string))
    = OLogDebug [LStr installedNightlyExtensionReleaseDate; LStr "="; LOptStr None]
      :: OMementoUpdate installedNightlyExtensionReleaseDate None settled
      :: rest.
Proof.
  apply (stable_clears_release_date_first (scripted (accepting march3 march5))
           utc (Some reentered) (stable_config true Nightly)); reflexivity.
Defined.

(** C10, witness: a stable build, nightly desired, prompts switched off:
    no prompt, the release date is cleared and the release info fetched, as
    with the option set and the prompt accepted. *)
Lemma not_asking_is_accepting_witness :
  askBeforeDownload (stable_config false Nightly) = false
  /\ run (scripted (accepting march3 march5))
       (askToDownloadProperExtensionVersion (stable_config false Nightly) "") false None
     = mkRun (Returned true) [] false None
  /\ none_of is_prompt
       (trace (orchestrate (accepting march3 march5) (stable_config false Nightly) None))
     = true
  /\ (exists res,
        In (OFetchArtifactReleaseInfo (mkRepo "rust-analyzer" "rust-analyzer")
              "rust-analyzer.vsix" "nightly" res)
           (trace (orchestrate (accepting march3 march5) (stable_config false Nightly)
                     None)))
  /\ same_but_prompts
       (orchestrate (accepting march3 march5) (stable_config false Nightly) None)
       (orchestrate (accepting march3 march5) (stable_config true Nightly) None).
Proof.
  destruct (not_asking_is_accepting (scripted (accepting march3 march5)) utc
              (Some reentered) (stable_config false Nightly) false None eq_refl)
    as (Ask & NoPrompt & Action & Same).
  split; [ reflexivity | ]. split; [ exact (Ask ""%string false None) | ].
  split; [ exact NoPrompt | ]. split.
  - destruct (Action eq_refl) as (_ & Fetch & _).
    apply (Fetch eq_refl eq_refl eq_refl). right. left. reflexivity.
  - apply Same. intros msg items w'. reflexivity.
Defined.

(** C6, witness: the persisted release date is 3 March 2020, the clock of
    the machine says 1 March 2020, and the latest nightly is that of 3 March. *)
Lemma up_to_date_nightly_is_left_alone_witness :
  outcome (orchestrate (accepting march1 march3) (nightly_config true Nightly)
             (Some "1583193600000"%string)) = Returned tt
  /\ In (OShowInformationMessage up_to_date_message)
       (trace (orchestrate (accepting march1 march3) (nightly_config true Nightly)
                 (Some "1583193600000"%string)))
  /\ none_of is_download
       (trace (orchestrate (accepting march1 march3) (nightly_config true Nightly)
                 (Some "1583193600000"%string))) = true
  /\ none_of is_install
       (trace (orchestrate (accepting march1 march3) (nightly_config true Nightly)
                 (Some "1583193600000"%string))) = true
  /\ none_of is_write
       (trace (orchestrate (accepting march1 march3) (nightly_config true Nightly)
                 (Some "1583193600000"%string))) = true
  /\ none_of is_restart
       (trace (orchestrate (accepting march1 march3) (nightly_config true Nightly)
                 (Some "1583193600000"%string))) = true.
Proof.
  apply (up_to_date_nightly_is_left_alone (scripted (accepting march1 march3)) utc
           (Some reentered) (nightly_config true Nightly) false
           (Some "1583193600000"%string) eq_refl eq_refl eq_refl
           ("The installed nightly version is most likely outdated. "
            ++ "Do you want to download the latest nightly rust-analyzer extension "
            ++ "version and reload the window now?")%string
           ["Download now"; "Cancel"]%string
           (mkRepo "rust-analyzer" "rust-analyzer") "rust-analyzer.vsix"%string
           "nightly"%string (release march3) "1583193600000"%string).
  - vm_compute. do 4 right. left. reflexivity.
  - vm_compute. do 5 right. left. reflexivity.
  - intros v H. vm_compute in H.
    repeat (destruct H as [H | H]; [ try discriminate H; now injection H as <- | ]).
    contradiction H.
  - reflexivity.
Defined.

End Examples.

(** ** Re-entrancy *)

Section Reentrancy.

Context {W : Type}.
Variable host : Host W.
Variable rt : Runtime.
Variable onReentry : option exn.

Lemma flag_free_bind {A B : Type} (p : Prog A) (f : A -> Prog B) :
  flag_free p -> (forall a, flag_free (f a)) -> flag_free (bind p f).
Proof.
  intros F Hf. induction F; cbn [bind]; auto; constructor; auto.
Qed.

Lemma flag_free_try_catch {A : Type} (p : Prog A) (h : exn -> Prog A) :
  flag_free p -> (forall e, flag_free (h e)) -> flag_free (try_catch p h).
Proof.
  intros F Hh. induction F; cbn [try_catch]; auto; constructor; auto.
Qed.

Lemma flag_free_await {X : Type} (op : Async X) : flag_free (await op).
Proof. constructor. intros [x | e]; constructor. Qed.

Lemma flag_free_call {X : Type} (c : Call X) : flag_free (call c).
Proof. constructor. intros x. constructor. Qed.

Lemma flag_free_tryDownloadNightlyExtension_fn config guard :
  (forall info, flag_free (guard info)) ->
  flag_free (tryDownloadNightlyExtension_fn rt config guard).
Proof.
  intros G. unfold tryDownloadNightlyExtension_fn.
  apply flag_free_try_catch; [ | intros e; apply flag_free_call ].
  apply flag_free_bind; [ apply flag_free_await | intros info ].
  apply flag_free_bind; [ apply G | intros ok ].
  destruct ok; cbn [negb]; [ | constructor ].
  unfold DateStorage_set, Storage_set.
  repeat first
    [ apply flag_free_await
    | apply flag_free_call
    | apply flag_free_bind; [ | intros ? ]
    | match goal with x : Empty_set |- _ => destruct x end ].
Qed.

Lemma flag_free_shouldDownload_default info : flag_free (shouldDownload_default info).
Proof. constructor. Qed.

Lemma flag_free_shouldDownload_outdated date info :
  flag_free (shouldDownload_outdated rt date info).
Proof.
  unfold shouldDownload_outdated, DateStorage_get, Storage_get, call, assert.
  cbn [bind]. constructor. intros v. constructor. intros _.
  destruct (truthy v), v; cbn [option_map bind];
    repeat match goal with
           | |- context [num_strict_eq ?a ?b] => destruct (num_strict_eq a b)
           end; cbn [bind]; repeat constructor.
Qed.

(** An invocation that finds the flag clear and sets it holds it until its
    last turn. *)
Lemma advance_holds_flag {A : Type} (p : Prog A) w :
  flag_free p -> holds_flag (advance host (finally_set_entered p false) true w).
Proof.
  intros F. revert w. induction F as [a | e | X c k _ IH | X op k Hk _]; intros w;
    cbn [finally_set_entered advance].
  - exact I.
  - exact I.
  - destruct (answer host c w) as [x w']. specialize (IH x w').
    unfold holds_flag in *. cbn [task flag]. exact IH.
  - unfold holds_flag. cbn [task flag]. split; [ reflexivity | ].
    exists k. split; [ exact Hk | reflexivity ].
Qed.

Lemma in_flight_holds_flag {A : Type} (t t' : Turn A W) :
  holds_flag t -> in_flight host t t' -> holds_flag t'.
Proof.
  intros H S. destruct S as [t X op k s w' Ht Hs | t w'].
  - unfold holds_flag in H. rewrite Ht in H. destruct H as (Hf & k' & Hk' & Hk).
    rewrite Hf, Hk. apply advance_holds_flag, Hk'.
  - exact H.
Qed.

Lemma reaches_holds_flag {A : Type} (t t' : Turn A W) :
  holds_flag t -> reaches host t t' -> holds_flag t'.
Proof.
  intros H R. induction R as [ | t1 t2 t3 _ IH S]; [ exact H | ].
  eapply in_flight_holds_flag; [ apply IH, H | exact S ].
Qed.

(** A run is the turns of the invocation one after the other, each
    awaited promise being settled at once. *)
Lemma run_by_turns {A : Type} (p : Prog A) e w :
  run host p e w
  = let t := advance host p e w in
    match task t with
    | Finished o => mkRun o (calls t) (flag t) (host_state t)
    | Suspended op k =>
        let (r, w') := settle host op (host_state t) in
        match r with
        | Some s =>
            after (calls t ++ [observe_async op r]) (run host (k s) (flag t) w')
        | None =>
            mkRun Pending (calls t ++ [observe_async op None]) (flag t) w'
        end
    end.
Proof.
  revert e w. induction p as [a | err | X c k IH | X op k _ | k IH | b k IH]; intros e w;
    cbn [run advance task calls flag host_state].
  - reflexivity.
  - reflexivity.
  - destruct (answer host c w) as [x w']. rewrite IH.
    destruct (advance host (k x) e w') as [[o | Y op' k'] cs fl hs]; cbn.
    + reflexivity.
    + destruct (settle host op' hs) as [[s | ] w'']; reflexivity.
  - destruct (settle host op w) as [[s | ] w']; reflexivity.
  - apply IH.
  - apply IH.
Qed.

(** C9: while an invocation of the fetch and install procedure that was
    let in is suspended at one of its [await]s, whatever the host has
    answered so far, a second invocation comes to its end in the turn in
    which it starts: it is rejected (or ignored), makes no call at all,
    and leaves the flag and the state of the host as they were. *)
Theorem second_invocation_is_turned_away
    (config config' : Config) (guard guard' : ArtifactReleaseInfo -> Prog bool)
    (w : W) (t : Turn unit W) :
  (forall info, flag_free (guard info)) ->
  reaches host
    (advance host (tryDownloadNightlyExtension rt onReentry config guard) false w) t ->
  suspended t = true ->
  advance host (tryDownloadNightlyExtension rt onReentry config' guard')
    (flag t) (host_state t)
  = mkTurn (Finished match onReentry with
                     | Some e => Thrown e
                     | None => Returned tt
                     end)
      [] (flag t) (host_state t).
Proof.
  intros G R S.
  assert (H : holds_flag t).
  { eapply reaches_holds_flag; [ | exact R ].
    unfold tryDownloadNightlyExtension, notReentrant. cbn [advance].
    apply advance_holds_flag, flag_free_tryDownloadNightlyExtension_fn, G. }
  unfold holds_flag in H. unfold suspended in S.
  destruct (task t) as [o | X op k]; [ discriminate S | ].
  destruct H as (Hf & _).
  unfold tryDownloadNightlyExtension, notReentrant. cbn [advance]. rewrite Hf.
  destruct onReentry; reflexivity.
Qed.

End Reentrancy.

Section MoreExamples.

Import Example.

(** The configurations of the examples are what the constructor builds. *)
Lemma example_configs ask channel :
  Config_new "0.2.20200301-nightly" None channel ask "/storage"
  = inr (nightly_config ask channel)
  /\ Config_new "0.2.20200301" None channel ask "/storage"
     = inr (stable_config ask channel).
Proof. split; reflexivity. Qed.

Lemma synchronous_shouldDownload_outdated rt date info :
  synchronous (shouldDownload_outdated rt date info).
Proof.
  unfold shouldDownload_outdated, DateStorage_get, Storage_get, call, assert.
  cbn [bind]. constructor. intros v. constructor. intros _.
  destruct (truthy v), v; cbn [option_map bind];
    repeat match goal with
           | |- context [num_strict_eq ?a ?b] => destruct (num_strict_eq a b)
           end; cbn [bind]; repeat constructor.
Qed.

(** C5, witness: the download fails; and, with the guard of the outdated
    nightly, another instance has changed the persisted release date. *)
Lemma tryDownloadNightlyExtension_catches_witness :
  (outcome (run (scripted (failing_download march3 march5))
              (tryDownload shouldDownload_default) false None) = Returned tt
   /\ In (OLogDownloadError (Rejection "ECONNRESET") "nightly extension" "rust-analyzer")
        (trace (run (scripted (failing_download march3 march5))
                  (tryDownload shouldDownload_default) false None))
   /\ none_of is_restart
        (trace (run (scripted (failing_download march3 march5))
                  (tryDownload shouldDownload_default) false None)) = true)
  /\ (outcome (run (scripted (accepting march3 march5))
                 (tryDownload (shouldDownload_outdated utc (date march1)))
                 false (Some "1583193600000"%string)) = Returned tt
      /\ In (OLogDownloadError
               (AssertionError "Other active VSCode instance has reinstalled the extension")
               "nightly extension" "rust-analyzer")
           (trace (run (scripted (accepting march3 march5))
                     (tryDownload (shouldDownload_outdated utc (date march1)))
                     false (Some "1583193600000"%string)))
      /\ none_of is_restart
           (trace (run (scripted (accepting march3 march5))
                     (tryDownload (shouldDownload_outdated utc (date march1)))
                     false (Some "1583193600000"%string))) = true).
Proof.
  split.
  - destruct (tryDownloadNightlyExtension_catches
                (scripted (failing_download march3 march5)) utc (Some reentered)
                (nightly_config true Nightly)
                shouldDownload_default None (fun _ => sync_Ret true))
      as (_ & H & _).
    destruct (H (ODownloadArtifactWithProgressUi (release march5) "rust-analyzer.vsix"
                   "/storage" "nightly extension"
                   (Some (Rejected (Rejection "ECONNRESET"))))
                (Rejection "ECONNRESET")) as (O & L & N).
    + vm_compute. right. left. reflexivity.
    + reflexivity.
    + split; [ exact O | ]. split; [ exact L | ]. apply N. reflexivity.
  - destruct (tryDownloadNightlyExtension_catches
                (scripted (accepting march3 march5)) utc (Some reentered)
                (nightly_config true Nightly)
                (shouldDownload_outdated utc (date march1))
                (Some "1583193600000"%string)
                (synchronous_shouldDownload_outdated utc (date march1)))
      as (_ & _ & H).
    apply (H (release march5) (Some "1583193600000"%string)); reflexivity.
Defined.

(** C9, witness: the first invocation has fetched the release info and
    awaits the download when the second one starts. *)
Lemma second_invocation_is_turned_away_witness :
  exists t,
    reaches (scripted (accepting march3 march5))
      (advance (scripted (accepting march3 march5))
         (tryDownload shouldDownload_default) false None) t
    /\ suspended t = true
    /\ advance (scripted (accepting march3 march5))
         (tryDownload (shouldDownload_outdated utc (date march1)))
         (flag t) (host_state t)
       = mkTurn (Finished (Thrown reentered)) [] (flag t) (host_state t).
Proof.
  eassert (R : reaches (scripted (accepting march3 march5))
                 (advance (scripted (accepting march3 march5))
                    (tryDownload shouldDownload_default) false None) _).
  { eapply reaches_step; [ apply reaches_refl | ].
    eapply flight_settled; reflexivity. }
  eexists. split; [ exact R | ]. split; [ reflexivity | ].
  apply (second_invocation_is_turned_away (scripted (accepting march3 march5)) utc
           (Some reentered) (nightly_config true Nightly) (nightly_config true Nightly)
           shouldDownload_default (shouldDownload_outdated utc (date march1)) None _
           flag_free_shouldDownload_default R).
  reflexivity.
Defined.

End MoreExamples.

(** * Further properties of config.ts *)

Section ConfigProperties.

Local Open Scope string_scope.

(** ** [endsWith], [startsWith] and [slice] are those of JavaScript *)

Lemma substring_all s : substring 0 (String.length s) s = s.
Proof. induction s as [ | c s IH]; [ reflexivity | ]. cbn. now rewrite IH. Qed.

Lemma substring_suffix p t :
  substring (String.length p) (String.length t) (p ++ t) = t.
Proof. induction p as [ | c p IH]; [ apply substring_all | exact IH ]. Qed.

Lemma substring_split s n m :
  (n + m = String.length s)%nat -> s = substring 0 n s ++ substring n m s.
Proof.
  revert n. induction s as [ | c s IH]; intros n H.
  - destruct n; [ | discriminate ]. cbn in H. subst m. reflexivity.
  - destruct n as [ | n].
    + cbn in H. subst m. cbn. now rewrite substring_all.
    + cbn [String.length] in H. injection H as H. cbn. f_equal. apply IH, H.
Qed.

Lemma length_append a b :
  String.length (a ++ b) = (String.length a + String.length b)%nat.
Proof. induction a as [ | c a IH]; [ reflexivity | ]. cbn. now rewrite IH. Qed.

(** [s.endsWith(t)] holds exactly when [s] is something followed by [t]. *)
Lemma endsWith_spec s t : endsWith s t = true <-> exists p, s = p ++ t.
Proof.
  unfold endsWith. rewrite andb_true_iff, Nat.leb_le, String.eqb_eq. split.
  - intros [L E].
    exists (substring 0 (String.length s - String.length t) s).
    remember (String.length t) as m eqn:Hm.
    rewrite <- E. apply substring_split. lia.
  - intros [p ->]. rewrite length_append. split; [ lia | ].
    replace (String.length p + String.length t - String.length t)%nat
      with (String.length p) by lia.
    apply substring_suffix.
Qed.

(** [s.startsWith(t)] holds exactly when [s] is [t] followed by something. *)
Lemma startsWith_spec s t : startsWith s t = true <-> exists r, s = t ++ r.
Proof.
  unfold startsWith. revert s. induction t as [ | c t IH]; intros s.
  - split; [ intros _; exists s; reflexivity | intros _; now destruct s ].
  - destruct s as [ | d s]; cbn [String.prefix].
    + split; [ discriminate | intros [r H]; discriminate H ].
    + destruct (ascii_dec c d) as [-> | N].
      * rewrite IH. split; intros [r H]; exists r; cbn [append] in *; congruence.
      * split; [ discriminate | intros [r H]; cbn [append] in H; congruence ].
Qed.

Lemma slice_1_cons c s : slice 1 (String c s) = s.
Proof. unfold slice. cbn. rewrite Nat.sub_0_r. apply substring_all. Qed.

End ConfigProperties.

(** ** The constructor, the release tag and the installed channel *)

Section ReleaseTagProperties.

Local Open Scope string_scope.

Lemma date_tag_is_not_nightly s : is_date_tag s -> String.eqb s NIGHTLY_TAG = false.
Proof.
  intros (yyyy & mm & dd & -> & Ly & Dy & _).
  destruct yyyy as [ | c yyyy]; [ discriminate Ly | ].
  cbn [all_digits] in Dy. apply andb_true_iff in Dy as [Dc _].
  unfold NIGHTLY_TAG. cbn [append String.eqb].
  destruct (Ascii.eqb_spec c "n") as [-> | ]; [ discriminate Dc | reflexivity ].
Qed.

(** X1: the release tag of every [Config] that the constructor builds is
    either "nightly" or of the form YYYY-MM-DD, as the comment on the field
    says. *)
Theorem extensionReleaseTag_nightly_or_date version path channel ask storage config :
  Config_new version path channel ask storage = inr config ->
  extensionReleaseTag config = NIGHTLY_TAG \/ is_date_tag (extensionReleaseTag config).
Proof.
  unfold Config_new, extensionReleaseTag_init.
  destruct (endsWith version NIGHTLY_TAG).
  - intros [= <-]. left. reflexivity.
  - destruct (match_realVersionRegexp version) as [[[yyyy mm] dd] | ] eqn:M;
      [ | discriminate ].
    intros [= <-]. right. cbn [extensionReleaseTag].
    apply match_realVersionRegexp_sound in M.
    destruct M as (n1 & n2 & rest & _ & _ & _ & _ & _ & Ly & Dy & Lm & Dm & Ld & Dd).
    exists yyyy, mm, dd. repeat split; assumption.
Qed.

(** X2: the constructor throws (the TypeError of destructuring [null])
    exactly for the versions that neither end in "nightly" nor begin with
    digits, a dot, digits, a dot and eight digits. *)
Theorem Config_new_throws_iff version path channel ask storage :
  (exists e, Config_new version path channel ask storage = inl e)
  <-> endsWith version NIGHTLY_TAG = false
      /\ forall yyyy mm dd, ~ realVersion version yyyy mm dd.
Proof.
  unfold Config_new, extensionReleaseTag_init. split.
  - intros [e H]. destruct (endsWith version NIGHTLY_TAG); [ discriminate H | ].
    split; [ reflexivity | ]. intros yyyy mm dd R.
    now rewrite (match_realVersionRegexp_complete _ _ _ _ R) in H.
  - intros [E N]. rewrite E.
    destruct (match_realVersionRegexp version) as [[[yyyy mm] dd] | ] eqn:M.
    + destruct (N yyyy mm dd). now apply match_realVersionRegexp_sound.
    + eexists. reflexivity.
Qed.

(** X3: for every [Config] that the constructor builds, the installed
    channel is Nightly exactly when the version ends in "nightly". *)
Theorem installed_channel_iff_version_ends_in_nightly
    version path channel ask storage config :
  Config_new version path channel ask storage = inr config ->
  (installedExtensionUpdateChannel config = Nightly
   <-> endsWith version NIGHTLY_TAG = true).
Proof.
  unfold Config_new, extensionReleaseTag_init, installedExtensionUpdateChannel.
  destruct (endsWith version NIGHTLY_TAG).
  - intros [= <-]. cbn [extensionReleaseTag]. now rewrite String.eqb_refl.
  - destruct (match_realVersionRegexp version) as [[[yyyy mm] dd] | ] eqn:M;
      [ | discriminate ].
    intros [= <-]. cbn [extensionReleaseTag].
    apply match_realVersionRegexp_sound in M.
    destruct M as (n1 & n2 & rest & _ & _ & _ & _ & _ & Ly & Dy & Lm & Dm & Ld & Dd).
    rewrite date_tag_is_not_nightly; [ split; discriminate | ].
    exists yyyy, mm, dd. repeat split; assumption.
Qed.

(** X4: whatever follows the eight digits of a version is ignored, unless
    it makes the version end in "nightly": the build is a stable one and
    its release tag is the date. *)
Theorem version_suffix_is_ignored version path channel ask storage yyyy mm dd :
  endsWith version NIGHTLY_TAG = false ->
  realVersion version yyyy mm dd ->
  exists config,
    Config_new version path channel ask storage = inr config
    /\ extensionReleaseTag config = yyyy ++ "-" ++ mm ++ "-" ++ dd
    /\ installedExtensionUpdateChannel config = Stable.
Proof.
  intros E R. unfold Config_new, extensionReleaseTag_init. rewrite E.
  rewrite (match_realVersionRegexp_complete _ _ _ _ R).
  eexists. split; [ reflexivity | ]. split; [ reflexivity | ].
  unfold installedExtensionUpdateChannel. cbn [extensionReleaseTag].
  rewrite date_tag_is_not_nightly; [ reflexivity | ].
  destruct R as (n1 & n2 & rest & _ & _ & _ & _ & _ & Ly & Dy & Lm & Dm & Ld & Dd).
  exists yyyy, mm, dd. repeat split; assumption.
Qed.

End ReleaseTagProperties.

(** X1, witness *)
Lemma extensionReleaseTag_nightly_or_date_witness :
  Config_new "0.2.20200309" None Stable true "/storage"
  = inr (mkConfig "0.2.20200309" "2020-03-09" None Stable true "/storage")
  /\ ("2020-03-09"%string = NIGHTLY_TAG \/ is_date_tag "2020-03-09").
Proof.
  split; [ reflexivity | ].
  exact (extensionReleaseTag_nightly_or_date "0.2.20200309" None Stable true "/storage"
           _ eq_refl).
Defined.

(** X3, witness *)
Lemma installed_channel_iff_version_ends_in_nightly_witness :
  Config_new "0.2.20200309-nightly" None Stable true "/storage"
  = inr (mkConfig "0.2.20200309-nightly" "nightly" None Stable true "/storage")
  /\ (installedExtensionUpdateChannel
        (mkConfig "0.2.20200309-nightly" "nightly" None Stable true "/storage") = Nightly
      <-> endsWith "0.2.20200309-nightly" NIGHTLY_TAG = true).
Proof.
  split; [ reflexivity | ].
  exact (installed_channel_iff_version_ends_in_nightly "0.2.20200309-nightly" None Stable
           true "/storage" _ eq_refl).
Defined.

(** X4, witness: a version with a build suffix. *)
Lemma version_suffix_is_ignored_witness :
  endsWith "0.2.20200309-beta.1" NIGHTLY_TAG = false
  /\ realVersion "0.2.20200309-beta.1" "2020" "03" "09"
  /\ exists config,
       Config_new "0.2.20200309-beta.1" None Nightly true "/storage" = inr config
       /\ extensionReleaseTag config = "2020-03-09"%string
       /\ installedExtensionUpdateChannel config = Stable.
Proof.
  assert (R : realVersion "0.2.20200309-beta.1" "2020" "03" "09").
  { exists "0"%string, "2"%string, "-beta.1"%string.
    repeat split; try reflexivity; discriminate. }
  split; [ reflexivity | ]. split; [ exact R | ].
  exact (version_suffix_is_ignored "0.2.20200309-beta.1" None Nightly true "/storage"
           "2020" "03" "09" eq_refl R).
Defined.

(** ** [replaceTildeWithHomeDir], [prebuiltServerFileName] and [serverSource] *)

Section ServerSource.

Local Open Scope string_scope.

Variable rt : Runtime.

(** X5: a leading "~/" is replaced by the home directory and a slash, and
    the rest of the path is kept; a path that does not begin with "~/" (so
    "~" alone, "~user/x" or a tilde further on) is returned as it is. *)
Theorem replaceTildeWithHomeDir_only_leading_tilde_slash path :
  (forall rest, path = "~/" ++ rest ->
                replaceTildeWithHomeDir rt path = os_homedir rt ++ "/" ++ rest)
  /\ ((forall rest, path <> "~/" ++ rest) -> replaceTildeWithHomeDir rt path = path).
Proof.
  unfold replaceTildeWithHomeDir. split.
  - intros rest ->.
    rewrite (proj2 (startsWith_spec ("~/" ++ rest) "~/")) by (exists rest; reflexivity).
    cbn [append String.length]. now rewrite slice_1_cons.
  - intros N. destruct (startsWith path "~/") eqn:S; [ | reflexivity ].
    apply startsWith_spec in S as [rest ->]. now destruct (N rest).
Qed.

(** X6: the server source is an explicit path exactly when the environment
    variable or, if that is not set, the option [serverPath] is a string
    that is not empty: then, and only then, the orchestrator leaves the
    updates alone. *)
Theorem explicit_path_iff_path_configured config :
  isExplicitPath (serverSource rt config) = truthy (debug_or_serverPath rt config).
Proof.
  unfold serverSource, debug_or_serverPath.
  destruct (RA_LSP_DEBUG rt) as [[ | c p] | ]; cbn [truthy isExplicitPath];
    try reflexivity.
  - destruct prebuiltServerFileName as [[ | ? ?] | ]; reflexivity.
  - destruct (serverPath config) as [[ | c p] | ]; cbn [truthy isExplicitPath];
      try reflexivity; destruct prebuiltServerFileName as [[ | ? ?] | ]; reflexivity.
Qed.

(** X7: once the environment variable is set, be it to the empty string,
    the option [serverPath] is not looked at. *)
Theorem debug_variable_hides_serverPath config debug path :
  RA_LSP_DEBUG rt = Some debug ->
  serverSource rt (with_serverPath config path) = serverSource rt config.
Proof.
  intros H. unfold serverSource. rewrite H. reflexivity.
Qed.

(** X8: there is no server source at all exactly when no path is configured
    and the platform has no prebuilt binary: Linux on arm or arm64, or a
    platform other than Linux, macOS and Windows. *)
Theorem no_server_source_iff config :
  serverSource rt config = None
  <-> truthy (debug_or_serverPath rt config) = false
      /\ (process_platform rt = "linux" ->
          process_arch rt = "arm" \/ process_arch rt = "arm64")
      /\ process_platform rt <> "darwin"
      /\ process_platform rt <> "win32".
Proof.
  unfold serverSource in *. fold (debug_or_serverPath rt config) in *.
  unfold prebuiltServerFileName in *.
  destruct (debug_or_serverPath rt config) as [[ | c p] | ]; cbn [truthy] in *.
  2: { split; [ discriminate | intros [H _]; discriminate H ]. }
  all: destruct (String.eqb_spec (process_platform rt) "linux") as [L | L];
    [ destruct (String.eqb_spec (process_arch rt) "arm") as [A | A];
      [ | destruct (String.eqb_spec (process_arch rt) "arm64") as [A' | A'] ]
    | destruct (String.eqb_spec (process_platform rt) "darwin") as [D | D];
      [ | destruct (String.eqb_spec (process_platform rt) "win32") as [Wn | Wn] ] ];
    cbn [orb].
  all: split;
    [ try discriminate; intros _; repeat split; auto; intros; congruence
    | try reflexivity; intros (_ & HL & HD & HW);
      try (destruct (HL L); contradiction); try contradiction ].
Qed.

(** X9: a server that is not given by a path is the prebuilt binary of the
    platform, in the repository rust-analyzer/rust-analyzer, of the release
    whose tag is the release tag of the extension itself, kept in the global
    storage directory. *)
Theorem server_release_is_that_of_the_extension config source :
  serverSource rt config = Some (GithubReleaseSource source) ->
  prebuiltServerFileName rt = Some (file source)
  /\ tag source = extensionReleaseTag config
  /\ dir source = globalStoragePath config
  /\ repo source = mkRepo "rust-analyzer" "rust-analyzer".
Proof.
  unfold serverSource.
  destruct (match RA_LSP_DEBUG rt with Some p => Some p | None => serverPath config end)
    as [[ | c p] | ]; try discriminate.
  all: destruct (prebuiltServerFileName rt) as [[ | c f] | ]; try discriminate.
  all: intros [= <-]; repeat split.
Qed.

End ServerSource.

(** X5, witness *)
Lemma replaceTildeWithHomeDir_only_leading_tilde_slash_witness :
  replaceTildeWithHomeDir Example.utc "~/bin/rust-analyzer" = "/home/user/bin/rust-analyzer"
  /\ replaceTildeWithHomeDir Example.utc "~user/bin" = "~user/bin".
Proof.
  split.
  - exact (proj1 (replaceTildeWithHomeDir_only_leading_tilde_slash Example.utc
                    "~/bin/rust-analyzer") "bin/rust-analyzer" eq_refl).
  - apply (proj2 (replaceTildeWithHomeDir_only_leading_tilde_slash Example.utc "~user/bin")).
    intros rest H. discriminate H.
Defined.

(** X7, witness: the variable is set to the empty string: the configured
    path is not used, and the prebuilt binary is. *)
Lemma debug_variable_hides_serverPath_witness :
  serverSource (runtime_with (Some "") "linux" "x64")
    (with_serverPath (Example.stable_config true Stable) (Some "/opt/rust-analyzer"))
  = serverSource (runtime_with (Some "") "linux" "x64") (Example.stable_config true Stable)
  /\ isExplicitPath
       (serverSource (runtime_with (Some "") "linux" "x64")
          (with_serverPath (Example.stable_config true Stable)
             (Some "/opt/rust-analyzer"))) = false.
Proof.
  split; [ | reflexivity ].
  exact (debug_variable_hides_serverPath (runtime_with (Some "") "linux" "x64")
           (Example.stable_config true Stable) "" (Some "/opt/rust-analyzer") eq_refl).
Defined.

(** X9, witness *)
Lemma server_release_is_that_of_the_extension_witness :
  prebuiltServerFileName Example.utc = Some "rust-analyzer-linux"
  /\ tag (mkGithubRelease "rust-analyzer-linux" "2020-03-01" "/storage"
            (mkRepo "rust-analyzer" "rust-analyzer")) = "2020-03-01"
  /\ dir (mkGithubRelease "rust-analyzer-linux" "2020-03-01" "/storage"
            (mkRepo "rust-analyzer" "rust-analyzer")) = "/storage"
  /\ repo (mkGithubRelease "rust-analyzer-linux" "2020-03-01" "/storage"
             (mkRepo "rust-analyzer" "rust-analyzer"))
     = mkRepo "rust-analyzer" "rust-analyzer".
Proof.
  exact (server_release_is_that_of_the_extension Example.utc
           (Example.stable_config true Stable)
           (mkGithubRelease "rust-analyzer-linux" "2020-03-01" "/storage"
              (mkRepo "rust-analyzer" "rust-analyzer")) eq_refl).
Defined.

(** ** [diffInHours] is odd and counts whole days *)

Section DiffInHoursProperties.

Import ESDate.
Local Open Scope Z_scope.

Variable rt : Runtime.

Lemma Date_UTC_midnight year month date v :
  Date_UTC year month date = Some v -> exists day, v = day * msPerDay.
Proof.
  unfold Date_UTC, TimeClip, MakeDate.
  destruct year as [y | ], month as [m | ], date as [d | ]; try discriminate.
  destruct (Z.abs _ >? _); [ discriminate | ].
  intros [= <-]. eexists. now rewrite Z.add_0_r.
Qed.

(** X10: exchanging the arguments of [diffInHours] changes the sign of the
    result (and NaN stays NaN). *)
Theorem diffInHours_exchanged a b :
  diffInHours rt b a = option_map Z.opp (diffInHours rt a b).
Proof.
  unfold diffInHours.
  destruct (Date_UTC (getFullYear rt a) (getMonth rt a) (getDate rt a)) as [ua | ] eqn:A;
    destruct (Date_UTC (getFullYear rt b) (getMonth rt b) (getDate rt b)) as [ub | ] eqn:B;
    cbn [num_sub num_div option_map]; try reflexivity.
  destruct (Date_UTC_midnight _ _ _ _ A) as [da ->].
  destruct (Date_UTC_midnight _ _ _ _ B) as [db ->].
  rewrite (proj1 (utc_difference_whole_hours da db)).
  rewrite (proj1 (utc_difference_whole_hours db da)). f_equal. lia.
Qed.

(** X11: a result of [diffInHours] is a whole number of days, in hours; so
    the test against the 25 hours of the heuristic is a test for at most one
    calendar day. *)
Theorem diffInHours_whole_days a b hours :
  diffInHours rt a b = Some hours ->
  hours mod 24 = 0
  /\ num_lt (Some hours) HEURISTIC_NIGHTLY_RELEASE_PERIOD_IN_HOURS = (hours <=? 24).
Proof.
  unfold diffInHours.
  destruct (Date_UTC (getFullYear rt a) (getMonth rt a) (getDate rt a)) as [ua | ] eqn:A;
    destruct (Date_UTC (getFullYear rt b) (getMonth rt b) (getDate rt b)) as [ub | ] eqn:B;
    cbn [num_sub num_div]; try discriminate.
  destruct (Date_UTC_midnight _ _ _ _ A) as [da ->].
  destruct (Date_UTC_midnight _ _ _ _ B) as [db ->].
  rewrite (proj1 (utc_difference_whole_hours da db)). intros H.
  assert (E : hours = 24 * (da - db)) by congruence. clear H. subst hours.
  unfold num_lt, HEURISTIC_NIGHTLY_RELEASE_PERIOD_IN_HOURS.
  split; [ rewrite Z.mul_comm; apply Z.mod_mul; lia | ].
  destruct (Z.ltb_spec (24 * (da - db)) 25), (Z.leb_spec (24 * (da - db)) 24);
    try reflexivity; lia.
Qed.

End DiffInHoursProperties.

(** X11, witness *)
Lemma diffInHours_whole_days_witness :
  diffInHours Example.utc (Example.date Example.march3) (Example.date Example.march1)
  = Some 48%Z
  /\ (48 mod 24 = 0)%Z
  /\ num_lt (Some 48%Z) HEURISTIC_NIGHTLY_RELEASE_PERIOD_IN_HOURS = (48 <=? 24)%Z.
Proof.
  split; [ reflexivity | ].
  exact (diffInHours_whole_days Example.utc (Example.date Example.march3)
           (Example.date Example.march1) 48%Z eq_refl).
Defined.

(** * Further properties of the storage and of the orchestrator *)

Section MoreOfTheOrchestrator.

Context {W : Type}.
Variable host : Host W.
Variable rt : Runtime.
Variable onReentry : option exn.

#[local] Arguments diffInHours : simpl never.
#[local] Arguments String.append : simpl never.
#[local] Arguments installedNightlyExtensionReleaseDate : simpl never.

Ltac exec :=
  cbn [run bind call await try_catch finally_set_entered
       Storage_get Storage_set DateStorage_get DateStorage_set
       observed observe_call observe_async outcome trace entered world
       assert negb UpdatesChannel_eqb option_map].

Ltac step :=
  match goal with
  | x : Empty_set |- _ => destruct x
  | |- context [answer ?h ?c ?w] =>
      let x := fresh "x" in let w' := fresh "w" in
      destruct (answer h c w) as [x w']
  | |- context [settle ?h ?op ?w] =>
      let s := fresh "s" in let w' := fresh "w" in
      destruct (settle h op w) as [[[s | s] | ] w']
  | |- context [truthy ?v] => destruct v as [ [ | ? ? ] | ]; cbn [truthy]
  | |- context [num_lt ?a ?b] => destruct (num_lt a b)
  | |- context [num_strict_eq ?a ?b] => destruct (num_strict_eq a b) eqn:?
  | |- context [String.eqb ?a ?b] => destruct (String.eqb_spec a b)
  | |- context [match ?b with Some _ => _ | None => _ end] => destruct b
  | |- context [if ?b then _ else _] => destruct b
  end; exec.

Ltac claim r :=
  pattern r; match goal with |- ?P r => set (Claim := P) end; subst r.

(** ** [DateStorage] *)

(** X12: on a [globalState] that keeps what is written to it, [get] after
    [set(date)] gives back [new Date(date.toString())] (the date as far as
    its string tells it; null if that string were empty), and null after
    [set(null)]; the write and the read are each logged. *)
Theorem DateStorage_get_after_set read key date e w :
  is_store host read ->
  let written := option_map (Date_toString rt) date in
  let r := run host (DateStorage_set rt key date ;; DateStorage_get rt key) e w in
  outcome r = Returned (if truthy written then option_map (Date_parse rt) written
                        else None)
  /\ trace r = [OLogDebug [LStr key; LStr "="; LOptStr written];
                OMementoUpdate key written (Some (Resolved tt));
                OMementoGet key written;
                OLogDebug [LStr key; LStr "=="; LOptStr written]]
  /\ read (world r) key = written.
Proof.
  intros [Hget Hlog Hupd] written r. subst r. unfold DateStorage_set, DateStorage_get.
  fold written. exec.
  pose proof (Hlog [LStr key; LStr "="; LOptStr written] w) as L1.
  destruct (answer host (LogDebug [LStr key; LStr "="; LOptStr written]) w) as [[] w1].
  cbn [snd] in L1. exec.
  destruct (Hupd key written w1) as [U1 U2].
  destruct (settle host (MementoUpdate key written) w1) as [s w2].
  cbn [fst snd] in U1, U2. subst s. exec.
  destruct (Hget key w2) as [G1 G2].
  destruct (answer host (MementoGet key) w2) as [v w3]. cbn [fst snd] in G1, G2.
  rewrite U2 in G1. subst v. exec.
  pose proof (Hlog [LStr key; LStr "=="; LOptStr written] w3) as L2.
  destruct (answer host (LogDebug [LStr key; LStr "=="; LOptStr written]) w3) as [[] w4].
  cbn [snd] in L2. exec.
  repeat split. now rewrite L2, G2.
Qed.

(** ** The channel decisions *)

(** X13: a stable build with the stable channel desired: the orchestrator
    clears the persisted release date and does nothing else: no prompt, no
    network call, no restart. *)
Theorem stable_to_stable_only_clears (config : Config) (e : bool) (w : W) :
  isExplicitPath (serverSource rt config) = false ->
  installedExtensionUpdateChannel config = Stable ->
  updatesChannel config = Stable ->
  let r := run host (ensureProperExtensionVersion rt onReentry config) e w in
  exists settled,
    trace r = [OLogDebug [LStr installedNightlyExtensionReleaseDate; LStr "=";
                          LOptStr None];
               OMementoUpdate installedNightlyExtensionReleaseDate None settled]
    /\ outcome r = match settled with
                   | Some (Resolved _) => Returned tt
                   | Some (Rejected err) => Thrown err
                   | None => Pending
                   end.
Proof.
  intros Hsrc Hcur Hdes r. subst r.
  unfold ensureProperExtensionVersion. rewrite Hsrc, Hcur, Hdes. exec.
  step. step; eexists; split; reflexivity.
Qed.

(** X14: when the write that clears the persisted release date is
    rejected, the orchestrator rejects with the same error and makes no
    further call, whatever channel is desired. *)
Theorem failed_clearing_propagates (config : Config) (e : bool) (w : W) err :
  let r := run host (ensureProperExtensionVersion rt onReentry config) e w in
  In (OMementoUpdate installedNightlyExtensionReleaseDate None (Some (Rejected err)))
     (trace r) ->
  outcome r = Thrown err
  /\ trace r = [OLogDebug [LStr installedNightlyExtensionReleaseDate; LStr "=";
                           LOptStr None];
                OMementoUpdate installedNightlyExtensionReleaseDate None
                  (Some (Rejected err))].
Proof.
  intros r. claim r.
  unfold ensureProperExtensionVersion, askToDownloadProperExtensionVersion,
    tryDownloadNightlyExtension, notReentrant, tryDownloadNightlyExtension_fn,
    shouldDownload_default, shouldDownload_outdated.
  destruct (isExplicitPath _); [ intros [] | ].
  destruct (installedExtensionUpdateChannel config), (updatesChannel config),
    (askBeforeDownload config); exec.
  all: repeat step.
  all: subst Claim; cbn beta; cbn [observed trace outcome]; intros H.
  all: cbn [In] in H;
    repeat (destruct H as [H | H]; [ try discriminate H | ]); try contradiction H.
  all: injection H as <-; split; reflexivity.
Qed.

(** X15: with the stable channel desired the orchestrator never goes to the
    network, never reads or writes a release date other than to clear it,
    and asks for a reload of the window only after the reinstall of the
    extension from the store has succeeded. *)
Theorem desired_stable_leaves_the_network_alone (config : Config) (e : bool) (w : W) :
  updatesChannel config = Stable ->
  let tr := trace (run host (ensureProperExtensionVersion rt onReentry config) e w) in
  none_of is_network tr = true
  /\ none_of is_read tr = true
  /\ forallb (fun o => implb (is_write o) (is_clearing o)) tr = true
  /\ (existsb is_restart tr = true ->
      existsb is_reinstalled (before is_restart tr) = true).
Proof.
  intros Hdes tr. subst tr.
  match goal with |- context [run ?h ?p ?e ?w] => set (r := run h p e w) end. claim r.
  unfold ensureProperExtensionVersion, askToDownloadProperExtensionVersion.
  rewrite Hdes.
  destruct (isExplicitPath _); [ repeat split; discriminate | ].
  destruct (installedExtensionUpdateChannel config), (askBeforeDownload config); exec.
  all: repeat step.
  all: subst Claim; cbn beta; cbn [observed trace outcome].
  all: repeat split; try discriminate; reflexivity.
Qed.

(** When the user's response is compared with "Download now". *)
Ltac settle_response H :=
  repeat match type of H with
         | context [String.eqb ?a ?b] =>
             first [ rewrite (String.eqb_refl a) in H
                   | match goal with
                     | N : a <> b |- _ => rewrite (proj2 (String.eqb_neq a b) N) in H
                     | E : a = b |- _ => rewrite E in H
                     end ]
         end.

Ltac settle_goal :=
  repeat match goal with
         | |- context [String.eqb ?a ?b] =>
             first [ rewrite (String.eqb_refl a)
                   | match goal with
                     | N : a <> b |- _ => rewrite (proj2 (String.eqb_neq a b) N)
                     | E : a = b |- _ => rewrite E
                     end ]
         end; reflexivity.

(** X16: when the user answers a prompt with anything but "Download now"
    (the button "Cancel", or the prompt dismissed), that prompt is the last
    call of the orchestrator: it returns, and there is no network call, no
    install and no restart, whatever the channels are. *)
Theorem declined_prompt_ends_the_run (config : Config) (e : bool) (w : W) :
  let r := run host (ensureProperExtensionVersion rt onReentry config) e w in
  existsb declined (trace r) = true ->
  outcome r = Returned tt
  /\ (exists calls prompt, trace r = (calls ++ [prompt])%list /\ declined prompt = true)
  /\ none_of is_network (trace r) = true
  /\ none_of is_install (trace r) = true
  /\ none_of is_restart (trace r) = true.
Proof.
  intros r. claim r.
  unfold ensureProperExtensionVersion, askToDownloadProperExtensionVersion,
    tryDownloadNightlyExtension, notReentrant, tryDownloadNightlyExtension_fn,
    shouldDownload_default, shouldDownload_outdated.
  destruct (isExplicitPath _); [ intros H; discriminate H | ].
  destruct (installedExtensionUpdateChannel config), (updatesChannel config),
    (askBeforeDownload config); exec.
  all: repeat step.
  all: subst Claim; cbn beta; cbn [observed trace outcome]; intros H.
  all: cbn [existsb declined orb] in H; settle_response H; cbn [negb orb] in H;
    try discriminate H.
  all: split; [ reflexivity | ].
  all: split;
    [ match goal with
      | |- exists calls prompt, ?l = _ /\ _ =>
          exists (removelast l), (last l (ONewDate (mkDate None)))
      end;
      split; [ reflexivity | cbn [last declined]; settle_goal ]
    | repeat split; reflexivity ].
Qed.

(** ** The order of the steps of the fetch and install procedure *)

Lemma quiet_silent tr :
  quiet tr ->
  existsb is_download tr = false /\ existsb is_install tr = false
  /\ existsb is_write tr = false /\ existsb is_unlink tr = false
  /\ existsb is_restart tr = false /\ existsb is_fetched tr = false
  /\ existsb is_downloaded tr = false /\ existsb is_installed tr = false
  /\ existsb is_written tr = false /\ existsb is_unlinked tr = false.
Proof.
  induction 1 as [ | o tr (_ & R & Wr & N & I & U & _) _ IH]; [ repeat split | ].
  destruct IH as (I1 & I2 & I3 & I4 & I5 & I6 & I7 & I8 & I9 & I10).
  cbn [existsb]. rewrite I1, I2, I3, I4, I5, I6, I7, I8, I9, I10, R, Wr, I, U.
  destruct o as [ | | | | | | ? ? [[]|] | ? ? [[]|] | ? ? ? [[]|] | ? ? ? ? [[]|]
                | ? [[]|] | ? [[]|] | ? [[]|] | [[]|] ];
    cbn in *; try discriminate; repeat split.
Qed.

Lemma before_app f (a b : list Obs) :
  existsb f a = false -> before f (a ++ b) = (a ++ before f b)%list.
Proof.
  induction a as [ | o a IH]; [ reflexivity | ].
  cbn [existsb app before]. intros H. apply orb_false_iff in H as [Ho Ha].
  now rewrite Ho, (IH Ha).
Qed.

(** X17: in the fetch and install procedure each step is only taken after
    the one before it has succeeded: the download after the fetch of the
    release info, the install after the download, the write of the release
    date after the install, the deletion of the file after the write, and
    the reload of the window after the deletion. *)
Theorem tryDownloadNightlyExtension_steps_in_order (config : Config)
    (guard : ArtifactReleaseInfo -> Prog bool) (w : W) :
  (forall info, synchronous (guard info)) ->
  let tr := trace (run host (tryDownloadNightlyExtension rt onReentry config guard)
                     false w) in
  (existsb is_download tr = true -> existsb is_fetched (before is_download tr) = true)
  /\ (existsb is_install tr = true -> existsb is_downloaded (before is_install tr) = true)
  /\ (existsb is_write tr = true -> existsb is_installed (before is_write tr) = true)
  /\ (existsb is_unlink tr = true -> existsb is_written (before is_unlink tr) = true)
  /\ (existsb is_restart tr = true -> existsb is_unlinked (before is_restart tr) = true).
Proof.
  intros G tr. subst tr.
  match goal with |- context [run ?h ?p ?e ?w] => set (r := run h p e w) end. claim r.
  unfold tryDownloadNightlyExtension, notReentrant, tryDownloadNightlyExtension_fn. exec.
  destruct (settle host (FetchArtifactReleaseInfo _ _ _) w) as [[[info | err] | ] w1];
    exec.
  - rewrite (run_synchronous_first _ _ _ _ _ _ _ (G info)).
    pose proof (run_synchronous host (guard info) true w1 (G info)) as Q.
    destruct (run host (guard info) true w1) as [o tr e' w2].
    cbn [outcome trace entered world] in *. destruct Q as (NP & _ & Q).
    fold (quiet tr) in Q.
    destruct (quiet_silent tr Q) as (Q1 & Q2 & Q3 & Q4 & Q5 & Q6 & Q7 & Q8 & Q9 & Q10).
    destruct o as [[ | ] | err | ]; [ | | | contradiction ]; exec.
    all: repeat step.
    all: subst Claim; cbn beta; cbn [observed after trace outcome app].
    all: cbn [existsb before is_download is_install is_write is_unlink is_restart
              is_fetched orb].
    all: rewrite ?before_app by assumption.
    all: rewrite ?existsb_app, ?Q1, ?Q2, ?Q3, ?Q4, ?Q5, ?Q6, ?Q7, ?Q8, ?Q9, ?Q10.
    all: repeat split; intros H; first [ discriminate H | reflexivity ].
  - step. subst Claim; cbn beta. repeat split; intros H; discriminate H.
  - subst Claim; cbn beta. repeat split; intros H; discriminate H.
Qed.

(** Membership in a trace made of a first call, the calls of a synchronous
    guard, and the calls that follow. *)
Ltac in_trace H :=
  repeat match type of H with
         | In _ (_ :: _) => destruct H as [H | H]; [ try discriminate H | ]
         | In _ (_ ++ _)%list => apply in_app_or in H; destruct H as [H | H]
         | In _ [] => destruct H
         end.

Ltac not_quiet H :=
  match goal with
  | Q : quiet ?tr |- _ =>
      match type of H with
      | In _ tr =>
          exfalso; apply (proj1 (Forall_forall _ _) Q) in H;
          destruct H as (_ & _ & ? & ? & ? & ? & _); cbn in *; discriminate
      end
  end.

(** X18: the only value that the fetch and install procedure writes to
    [globalState] is the release date of the release that it fetched, as
    [Date.prototype.toString] gives it, under the key of
    [installedNightlyExtensionReleaseDate]. *)
Theorem recorded_date_is_that_of_the_fetched_release (config : Config)
    (guard : ArtifactReleaseInfo -> Prog bool) (w : W) key val res :
  (forall info, synchronous (guard info)) ->
  let tr := trace (run host (tryDownloadNightlyExtension rt onReentry config guard)
                     false w) in
  In (OMementoUpdate key val res) tr ->
  key = installedNightlyExtensionReleaseDate
  /\ exists info,
       In (OFetchArtifactReleaseInfo (mkRepo "rust-analyzer" "rust-analyzer")
             "rust-analyzer.vsix" "nightly" (Some (Resolved info))) tr
       /\ val = Some (Date_toString rt (releaseDate info)).
Proof.
  intros G tr. subst tr.
  match goal with |- context [run ?h ?p ?e ?w] => set (r := run h p e w) end. claim r.
  unfold tryDownloadNightlyExtension, notReentrant, tryDownloadNightlyExtension_fn. exec.
  destruct (settle host (FetchArtifactReleaseInfo _ _ _) w) as [[[info | err] | ] w1];
    exec.
  - rewrite (run_synchronous_first _ _ _ _ _ _ _ (G info)).
    pose proof (run_synchronous host (guard info) true w1 (G info)) as Q.
    destruct (run host (guard info) true w1) as [o tr e' w2].
    cbn [outcome trace entered world] in *. destruct Q as (NP & _ & Q).
    fold (quiet tr) in Q.
    destruct o as [[ | ] | err | ]; [ | | | contradiction ]; exec.
    all: repeat step.
    all: subst Claim; cbn beta; cbn [observed after trace outcome app]; intros H.
    all: in_trace H; try not_quiet H.
    all: injection H as <- <- _; split; [ reflexivity | ].
    all: exists info; split; [ left; reflexivity | reflexivity ].
  - step. subst Claim; cbn beta. cbn [observed after trace outcome app]; intros H.
    in_trace H.
  - subst Claim; cbn beta. cbn [observed after trace outcome app]; intros H.
    in_trace H.
Qed.

(** X19: the fetch and install procedure downloads the release that it
    fetched, to the file rust-analyzer.vsix of the global storage directory,
    and the file that it installs and the file that it deletes are that
    file. *)
Theorem installs_what_it_downloaded (config : Config)
    (guard : ArtifactReleaseInfo -> Prog bool) (w : W) :
  (forall info, synchronous (guard info)) ->
  let tr := trace (run host (tryDownloadNightlyExtension rt onReentry config guard)
                     false w) in
  let vsix := path_join rt (globalStoragePath config) "rust-analyzer.vsix" in
  (forall info f d name res,
      In (ODownloadArtifactWithProgressUi info f d name res) tr ->
      f = "rust-analyzer.vsix" /\ d = globalStoragePath config
      /\ In (OFetchArtifactReleaseInfo (mkRepo "rust-analyzer" "rust-analyzer")
               "rust-analyzer.vsix" "nightly" (Some (Resolved info))) tr)
  /\ (forall path res, In (OVscodeInstallExtensionFromVsix path res) tr -> path = vsix)
  /\ (forall path res, In (OFsUnlink path res) tr -> path = vsix).
Proof.
  intros G tr vsix. subst tr vsix.
  match goal with |- context [run ?h ?p ?e ?w] => set (r := run h p e w) end. claim r.
  unfold tryDownloadNightlyExtension, notReentrant, tryDownloadNightlyExtension_fn. exec.
  destruct (settle host (FetchArtifactReleaseInfo _ _ _) w) as [[[info | err] | ] w1];
    exec.
  - rewrite (run_synchronous_first _ _ _ _ _ _ _ (G info)).
    pose proof (run_synchronous host (guard info) true w1 (G info)) as Q.
    destruct (run host (guard info) true w1) as [o tr e' w2].
    cbn [outcome trace entered world] in *. destruct Q as (NP & _ & Q).
    fold (quiet tr) in Q.
    destruct o as [[ | ] | err | ]; [ | | | contradiction ]; exec.
    all: repeat step.
    all: subst Claim; cbn beta; cbn [observed after trace outcome app].
    all: split; [ intros info' f d name res H | split; intros path res H ].
    all: in_trace H; try not_quiet H.
    all: try (injection H as <- <- <- _ _; repeat split; left; reflexivity).
    all: injection H as <- _; reflexivity.
  - step. subst Claim; cbn beta. cbn [observed after trace outcome app].
    split; [ intros info' f d name res H | split; intros path res H ]; in_trace H.
  - subst Claim; cbn beta. cbn [observed after trace outcome app].
    split; [ intros info' f d name res H | split; intros path res H ]; in_trace H.
Qed.

(** ** The guard of an outdated nightly *)

(** X20: when the release date that the guard reads from [globalState] is
    not the date that the update was decided on (the value is absent, empty,
    or stands for another time, or either time is NaN), the assertion of the
    guard fails: nothing is downloaded, the failure is logged as a download
    error, and the procedure returns. *)
Theorem changed_release_date_stops_the_update (config : Config)
    (currentExtReleaseDate : Date) (w : W) (val : option string) :
  let r := run host (tryDownloadNightlyExtension rt onReentry config
                       (shouldDownload_outdated rt currentExtReleaseDate)) false w in
  In (OMementoGet installedNightlyExtensionReleaseDate val) (trace r) ->
  persisted_is rt val currentExtReleaseDate = false ->
  outcome r = Returned tt
  /\ none_of is_download (trace r) = true
  /\ In (OLogDownloadError reinstalled_elsewhere "nightly extension" "rust-analyzer")
        (trace r).
Proof.
  intros r. claim r.
  unfold tryDownloadNightlyExtension, notReentrant, tryDownloadNightlyExtension_fn,
    shouldDownload_outdated. exec.
  repeat step.
  all: subst Claim; cbn beta; cbn [observed trace outcome]; intros H Hp.
  all: in_trace H.
  all: injection H as <-; cbn [persisted_is] in Hp; try congruence.
  all: repeat match goal with x : unit |- _ => destruct x end.
  all: repeat split; cbn [In]; auto 10.
Qed.

(** A date without a time value is no number of hours away from any date. *)
Lemma diffInHours_NaN (a b : Date) :
  getTime a = None -> diffInHours rt a b = None.
Proof.
  intros H. unfold diffInHours, getFullYear, getMonth, getDate. rewrite H. reflexivity.
Qed.

(** X21: a nightly build, the nightly channel desired, and a persisted
    release date that [Date] cannot parse (its time value is NaN): the
    orchestrator does not return early (NaN hours are not fewer than 25),
    but the guard's comparison with NaN fails, so nothing is ever
    downloaded, installed, written or restarted; once the release info has
    been fetched, the failure is logged and the orchestrator returns. *)
Theorem unparseable_release_date_never_updates (config : Config) (e : bool) (w : W)
    (dateStr : string) :
  isExplicitPath (serverSource rt config) = false ->
  installedExtensionUpdateChannel config = Nightly ->
  updatesChannel config = Nightly ->
  fst (answer host (MementoGet installedNightlyExtensionReleaseDate) w) = Some dateStr ->
  dateStr <> "" ->
  getTime (Date_parse rt dateStr) = None ->
  let r := run host (ensureProperExtensionVersion rt onReentry config) e w in
  none_of is_download (trace r) = true
  /\ none_of is_install (trace r) = true
  /\ none_of is_write (trace r) = true
  /\ none_of is_restart (trace r) = true
  /\ (askBeforeDownload config = false -> e = false ->
      existsb is_network (trace r) = true)
  /\ (existsb is_fetched (trace r) = true ->
      outcome r = Returned tt
      /\ In (OLogDownloadError reinstalled_elsewhere "nightly extension" "rust-analyzer")
            (trace r)).
Proof.
  intros Hsrc Hcur Hdes Hread Hne Hnan r. subst r.
  match goal with |- context [run ?h ?p ?e ?w] => set (r := run h p e w) end. claim r.
  unfold ensureProperExtensionVersion, askToDownloadProperExtensionVersion,
    tryDownloadNightlyExtension, notReentrant, tryDownloadNightlyExtension_fn,
    shouldDownload_outdated.
  rewrite Hsrc, Hcur, Hdes. exec.
  destruct (answer host (MementoGet _) w) as [v w1]. cbn [fst] in Hread. subst v.
  destruct dateStr as [ | c rest]; [ congruence | ]. exec. cbn [truthy].
  step. step. rewrite (diffInHours_NaN _ _ Hnan). rewrite Hnan.
  cbn [num_lt num_strict_eq]. exec.
  destruct (askBeforeDownload config), e, onReentry; exec.
  all: repeat step.
  all: subst Claim; cbn beta; cbn [observed trace outcome].
  all: repeat match goal with x : unit |- _ => destruct x end.
  all: repeat split; try reflexivity; try discriminate; try congruence; cbn [In]; auto 12.
Qed.

(** ** Prompts *)

(** X22: with [askBeforeDownload] on, the orchestrator goes to the network
    or installs something only after the user has answered a prompt with
    "Download now". *)
Theorem nothing_is_fetched_or_installed_unasked (config : Config) (e : bool) (w : W) :
  askBeforeDownload config = true ->
  let tr := trace (run host (ensureProperExtensionVersion rt onReentry config) e w) in
  existsb is_action tr = true ->
  existsb accepted (before is_action tr) = true.
Proof.
  intros Hask tr. subst tr.
  match goal with |- context [run ?h ?p ?e ?w] => set (r := run h p e w) end. claim r.
  unfold ensureProperExtensionVersion, askToDownloadProperExtensionVersion,
    tryDownloadNightlyExtension, notReentrant, tryDownloadNightlyExtension_fn,
    shouldDownload_default, shouldDownload_outdated.
  rewrite Hask.
  destruct (isExplicitPath _); [ intros H; discriminate H | ].
  destruct (installedExtensionUpdateChannel config), (updatesChannel config); exec.
  all: repeat step.
  all: subst Claim; cbn beta; cbn [observed trace outcome].
  all: cbn [existsb before is_action is_network is_install orb]; intros H;
    try discriminate H.
  all: cbn [existsb accepted]; settle_goal.
Qed.

(** X23: the orchestrator shows at most one prompt in a run. *)
Theorem at_most_one_prompt (config : Config) (e : bool) (w : W) :
  (prompts (trace (run host (ensureProperExtensionVersion rt onReentry config) e w))
   <= 1)%nat.
Proof.
  match goal with |- context [run ?h ?p ?e ?w] => set (r := run h p e w) end. claim r.
  unfold ensureProperExtensionVersion, askToDownloadProperExtensionVersion,
    tryDownloadNightlyExtension, notReentrant, tryDownloadNightlyExtension_fn,
    shouldDownload_default, shouldDownload_outdated.
  destruct (isExplicitPath _); [ subst Claim; cbn; lia | ].
  destruct (installedExtensionUpdateChannel config), (updatesChannel config),
    (askBeforeDownload config); exec.
  all: repeat step.
  all: subst Claim; cbn beta; cbn [observed trace outcome].
  all: unfold prompts; cbn [filter is_prompt List.length]; lia.
Qed.

(** X24: every prompt of the orchestrator offers the buttons "Download now"
    and "Cancel" and names the channel that is desired, "stable" or "latest
    nightly"; it is preceded by the remark on an outdated nightly only when
    a nightly build is installed and the nightly channel is desired. *)
Theorem prompt_names_the_desired_channel (config : Config) (e : bool) (w : W)
    msg items res :
  let tr := trace (run host (ensureProperExtensionVersion rt onReentry config) e w) in
  In (OAskInformationMessage msg items res) tr ->
  items = ["Download now"; "Cancel"]
  /\ exists reason,
       msg = reason ++ "Do you want to download the "
             ++ (if UpdatesChannel_eqb (updatesChannel config) Stable
                 then "stable" else "latest nightly")
             ++ " rust-analyzer extension " ++ "version and reload the window now?"
       /\ (reason = ""
           \/ reason = "The installed nightly version is most likely outdated. "
              /\ installedExtensionUpdateChannel config = Nightly
              /\ updatesChannel config = Nightly).
Proof.
  intros tr. subst tr.
  destruct (isExplicitPath (serverSource rt config)) eqn:Hsrc;
    [ unfold ensureProperExtensionVersion; rewrite Hsrc; intros [] | ].
  destruct (installedExtensionUpdateChannel config) eqn:Hcur,
    (updatesChannel config) eqn:Hdes, (askBeforeDownload config) eqn:Hask.
  all: match goal with |- context [run ?h ?p ?e ?w] => set (r := run h p e w) end;
    claim r.
  all: unfold ensureProperExtensionVersion, askToDownloadProperExtensionVersion,
    tryDownloadNightlyExtension, notReentrant, tryDownloadNightlyExtension_fn,
    shouldDownload_default, shouldDownload_outdated.
  all: rewrite Hsrc, Hcur, Hdes, ?Hask; exec.
  all: repeat step.
  all: subst Claim; cbn beta; cbn [observed trace outcome UpdatesChannel_eqb]; intros H.
  all: in_trace H.
  all: injection H as <- <- _; split; [ reflexivity | ].
  all: eexists; split; [ reflexivity | ]; auto.
Qed.

End MoreOfTheOrchestrator.
(** ** The properties above on the scripted host *)

Section MoreRuns.

Import Example.

(** The scripted host keeps what is written to it. *)
Lemma scripted_is_store t_now t_latest :
  is_store (scripted (accepting t_now t_latest)) (fun w _ => w).
Proof. split; intros; repeat split. Qed.

(** X12, witness: the release date of March 1st, written and read back. *)
Lemma DateStorage_get_after_set_witness :
  is_store (scripted (accepting march5 march5)) (fun w _ => w)
  /\ outcome (run (scripted (accepting march5 march5))
                (DateStorage_set utc installedNightlyExtensionReleaseDate
                   (Some (date march1)) ;;
                 DateStorage_get utc installedNightlyExtensionReleaseDate) false None)
     = Returned (Some (date march1)).
Proof.
  split; [ exact (scripted_is_store march5 march5) | ].
  exact (proj1 (DateStorage_get_after_set (scripted (accepting march5 march5)) utc
                  (fun w _ => w) installedNightlyExtensionReleaseDate
                  (Some (date march1)) false None (scripted_is_store march5 march5))).
Defined.

(** X13, witness *)
Lemma stable_to_stable_only_clears_witness :
  isExplicitPath (serverSource utc (stable_config true Stable)) = false
  /\ installedExtensionUpdateChannel (stable_config true Stable) = Stable
  /\ updatesChannel (stable_config true Stable) = Stable
  /\ exists settled,
       trace (orchestrate (accepting march5 march5) (stable_config true Stable)
                (Some "1583020800000"%string))
       = [OLogDebug [LStr installedNightlyExtensionReleaseDate; LStr "=";
                     LOptStr None];
          OMementoUpdate installedNightlyExtensionReleaseDate None settled]
       /\ outcome (orchestrate (accepting march5 march5) (stable_config true Stable)
                     (Some "1583020800000"%string))
          = match settled with
            | Some (Resolved _) => Returned tt
            | Some (Rejected err) => Thrown err
            | None => Pending
            end.
Proof.
  split; [ reflexivity | ]. split; [ reflexivity | ]. split; [ reflexivity | ].
  exact (stable_to_stable_only_clears (scripted (accepting march5 march5)) utc
           (Some reentered) (stable_config true Stable) false
           (Some "1583020800000"%string) eq_refl eq_refl eq_refl).
Defined.

(** X14, witness: [globalState] refuses the update. *)
Lemma failed_clearing_propagates_witness :
  In (OMementoUpdate installedNightlyExtensionReleaseDate None
        (Some (Rejected (Rejection "EACCES"))))
     (trace (orchestrate (failing_update march5 march5) (stable_config true Nightly)
               None))
  /\ outcome (orchestrate (failing_update march5 march5) (stable_config true Nightly)
                None)
     = Thrown (Rejection "EACCES")
  /\ trace (orchestrate (failing_update march5 march5) (stable_config true Nightly)
              None)
     = [OLogDebug [LStr installedNightlyExtensionReleaseDate; LStr "="; LOptStr None];
        OMementoUpdate installedNightlyExtensionReleaseDate None
          (Some (Rejected (Rejection "EACCES")))].
Proof.
  assert (H : In (OMementoUpdate installedNightlyExtensionReleaseDate None
                    (Some (Rejected (Rejection "EACCES"))))
                (trace (orchestrate (failing_update march5 march5)
                          (stable_config true Nightly) None))).
  { right. left. reflexivity. }
  split; [ exact H | ].
  exact (failed_clearing_propagates (scripted (failing_update march5 march5)) utc
           (Some reentered) (stable_config true Nightly) false None
           (Rejection "EACCES") H).
Defined.

(** X15, witness: a nightly build goes back to the stable channel; the
    extension is reinstalled from the store and the window reloaded. *)
Lemma desired_stable_leaves_the_network_alone_witness :
  updatesChannel (nightly_config true Stable) = Stable
  /\ none_of is_network
       (trace (orchestrate (accepting march5 march5) (nightly_config true Stable)
                 (Some "1583020800000"%string))) = true
  /\ none_of is_read
       (trace (orchestrate (accepting march5 march5) (nightly_config true Stable)
                 (Some "1583020800000"%string))) = true
  /\ existsb is_restart
       (trace (orchestrate (accepting march5 march5) (nightly_config true Stable)
                 (Some "1583020800000"%string))) = true
  /\ existsb is_reinstalled
       (before is_restart
          (trace (orchestrate (accepting march5 march5) (nightly_config true Stable)
                    (Some "1583020800000"%string)))) = true.
Proof.
  destruct (desired_stable_leaves_the_network_alone (scripted (accepting march5 march5))
              utc (Some reentered) (nightly_config true Stable) false
              (Some "1583020800000"%string) eq_refl) as (N & R & _ & S).
  split; [ reflexivity | ]. split; [ exact N | ]. split; [ exact R | ].
  split; [ reflexivity | ]. exact (S eq_refl).
Defined.

(** X16, witness: a stable build, the nightly channel desired, and the user
    presses "Cancel". *)
Lemma declined_prompt_ends_the_run_witness :
  existsb declined
    (trace (orchestrate (declining march5 march5) (stable_config true Nightly) None))
  = true
  /\ outcome (orchestrate (declining march5 march5) (stable_config true Nightly) None)
     = Returned tt
  /\ none_of is_network
       (trace (orchestrate (declining march5 march5) (stable_config true Nightly) None))
     = true.
Proof.
  destruct (declined_prompt_ends_the_run (scripted (declining march5 march5)) utc
              (Some reentered) (stable_config true Nightly) false None eq_refl)
    as (O & _ & N & _).
  split; [ reflexivity | ]. split; [ exact O | exact N ].
Defined.

(** X17, witness: every step succeeds, up to the reload of the window. *)
Lemma tryDownloadNightlyExtension_steps_in_order_witness :
  (forall info, synchronous (shouldDownload_default info))
  /\ existsb is_restart
       (trace (run (scripted (accepting march3 march5))
                 (tryDownload shouldDownload_default) false None)) = true
  /\ existsb is_fetched
       (before is_download
          (trace (run (scripted (accepting march3 march5))
                    (tryDownload shouldDownload_default) false None))) = true
  /\ existsb is_downloaded
       (before is_install
          (trace (run (scripted (accepting march3 march5))
                    (tryDownload shouldDownload_default) false None))) = true
  /\ existsb is_installed
       (before is_write
          (trace (run (scripted (accepting march3 march5))
                    (tryDownload shouldDownload_default) false None))) = true
  /\ existsb is_written
       (before is_unlink
          (trace (run (scripted (accepting march3 march5))
                    (tryDownload shouldDownload_default) false None))) = true
  /\ existsb is_unlinked
       (before is_restart
          (trace (run (scripted (accepting march3 march5))
                    (tryDownload shouldDownload_default) false None))) = true.
Proof.
  destruct (tryDownloadNightlyExtension_steps_in_order
              (scripted (accepting march3 march5)) utc (Some reentered)
              (nightly_config true Nightly) shouldDownload_default None
              (fun _ => sync_Ret true)) as (D & I & Wr & U & R).
  split; [ exact (fun _ => sync_Ret true) | ]. split; [ reflexivity | ].
  split; [ exact (D eq_refl) | ]. split; [ exact (I eq_refl) | ].
  split; [ exact (Wr eq_refl) | ]. split; [ exact (U eq_refl) | exact (R eq_refl) ].
Defined.

(** X18, witness: the nightly of March 5th is fetched and its date written. *)
Lemma recorded_date_is_that_of_the_fetched_release_witness :
  (forall info, synchronous (shouldDownload_default info))
  /\ In (OMementoUpdate installedNightlyExtensionReleaseDate
           (Some "1583366400000"%string) (Some (Resolved tt)))
        (trace (run (scripted (accepting march3 march5))
                  (tryDownload shouldDownload_default) false None))
  /\ exists info,
       In (OFetchArtifactReleaseInfo (mkRepo "rust-analyzer" "rust-analyzer")
             "rust-analyzer.vsix" "nightly" (Some (Resolved info)))
          (trace (run (scripted (accepting march3 march5))
                    (tryDownload shouldDownload_default) false None))
       /\ Some "1583366400000"%string = Some (Date_toString utc (releaseDate info)).
Proof.
  assert (H : In (OMementoUpdate installedNightlyExtensionReleaseDate
                    (Some "1583366400000"%string) (Some (Resolved tt)))
                (trace (run (scripted (accepting march3 march5))
                          (tryDownload shouldDownload_default) false None))).
  { do 4 right. left. reflexivity. }
  split; [ exact (fun _ => sync_Ret true) | ]. split; [ exact H | ].
  exact (proj2 (recorded_date_is_that_of_the_fetched_release
                  (scripted (accepting march3 march5)) utc (Some reentered)
                  (nightly_config true Nightly) shouldDownload_default None _ _ _
                  (fun _ => sync_Ret true) H)).
Defined.

(** X19, witness *)
Lemma installs_what_it_downloaded_witness :
  (forall info, synchronous (shouldDownload_default info))
  /\ In (OVscodeInstallExtensionFromVsix "/storage/rust-analyzer.vsix"
           (Some (Resolved tt)))
        (trace (run (scripted (accepting march3 march5))
                  (tryDownload shouldDownload_default) false None))
  /\ "/storage/rust-analyzer.vsix"%string
     = path_join utc (globalStoragePath (nightly_config true Nightly))
         "rust-analyzer.vsix".
Proof.
  assert (H : In (OVscodeInstallExtensionFromVsix "/storage/rust-analyzer.vsix"
                    (Some (Resolved tt)))
                (trace (run (scripted (accepting march3 march5))
                          (tryDownload shouldDownload_default) false None))).
  { do 2 right. left. reflexivity. }
  split; [ exact (fun _ => sync_Ret true) | ]. split; [ exact H | ].
  exact (proj1 (proj2 (installs_what_it_downloaded
                         (scripted (accepting march3 march5)) utc (Some reentered)
                         (nightly_config true Nightly) shouldDownload_default None
                         (fun _ => sync_Ret true))) _ _ H).
Defined.

(** X20, witness: the update was decided on the date of March 1st, and the
    guard finds that of March 3rd. *)
Lemma changed_release_date_stops_the_update_witness :
  In (OMementoGet installedNightlyExtensionReleaseDate (Some "1583193600000"%string))
     (trace (run (scripted (accepting march5 march5))
               (tryDownload (shouldDownload_outdated utc (date march1))) false
               (Some "1583193600000"%string)))
  /\ persisted_is utc (Some "1583193600000"%string) (date march1) = false
  /\ outcome (run (scripted (accepting march5 march5))
                (tryDownload (shouldDownload_outdated utc (date march1))) false
                (Some "1583193600000"%string)) = Returned tt
  /\ none_of is_download
       (trace (run (scripted (accepting march5 march5))
                 (tryDownload (shouldDownload_outdated utc (date march1))) false
                 (Some "1583193600000"%string))) = true
  /\ In (OLogDownloadError reinstalled_elsewhere "nightly extension" "rust-analyzer")
        (trace (run (scripted (accepting march5 march5))
                  (tryDownload (shouldDownload_outdated utc (date march1))) false
                  (Some "1583193600000"%string))).
Proof.
  assert (H : In (OMementoGet installedNightlyExtensionReleaseDate
                    (Some "1583193600000"%string))
                (trace (run (scripted (accepting march5 march5))
                          (tryDownload (shouldDownload_outdated utc (date march1)))
                          false (Some "1583193600000"%string)))).
  { right. left. reflexivity. }
  split; [ exact H | ]. split; [ reflexivity | ].
  exact (changed_release_date_stops_the_update (scripted (accepting march5 march5)) utc
           (Some reentered) (nightly_config true Nightly) (date march1)
           (Some "1583193600000"%string) (Some "1583193600000"%string) H eq_refl).
Defined.

(** X21, witness: the persisted release date is not a date. *)
Lemma unparseable_release_date_never_updates_witness :
  isExplicitPath (serverSource utc (nightly_config false Nightly)) = false
  /\ installedExtensionUpdateChannel (nightly_config false Nightly) = Nightly
  /\ updatesChannel (nightly_config false Nightly) = Nightly
  /\ fst (answer (scripted (accepting march5 march5))
            (MementoGet installedNightlyExtensionReleaseDate) (Some "last week"%string))
     = Some "last week"%string
  /\ "last week"%string <> ""%string
  /\ getTime (Date_parse utc "last week") = None
  /\ existsb is_fetched
       (trace (orchestrate (accepting march5 march5) (nightly_config false Nightly)
                 (Some "last week"%string))) = true
  /\ none_of is_download
       (trace (orchestrate (accepting march5 march5) (nightly_config false Nightly)
                 (Some "last week"%string))) = true
  /\ outcome (orchestrate (accepting march5 march5) (nightly_config false Nightly)
                (Some "last week"%string)) = Returned tt.
Proof.
  assert (N : "last week"%string <> ""%string) by discriminate.
  destruct (unparseable_release_date_never_updates (scripted (accepting march5 march5))
              utc (Some reentered) (nightly_config false Nightly) false
              (Some "last week"%string) "last week" eq_refl eq_refl eq_refl eq_refl N
              eq_refl) as (D & _ & _ & _ & _ & F).
  split; [ reflexivity | ]. split; [ reflexivity | ]. split; [ reflexivity | ].
  split; [ reflexivity | ]. split; [ exact N | ]. split; [ reflexivity | ].
  split; [ reflexivity | ]. split; [ exact D | ]. exact (proj1 (F eq_refl)).
Defined.

(** X22, witness: the user is asked, accepts, and the extension is
    reinstalled. *)
Lemma nothing_is_fetched_or_installed_unasked_witness :
  askBeforeDownload (nightly_config true Stable) = true
  /\ existsb is_action
       (trace (orchestrate (accepting march5 march5) (nightly_config true Stable)
                 (Some "1583020800000"%string))) = true
  /\ existsb accepted
       (before is_action
          (trace (orchestrate (accepting march5 march5) (nightly_config true Stable)
                    (Some "1583020800000"%string)))) = true.
Proof.
  split; [ reflexivity | ]. split; [ reflexivity | ].
  exact (nothing_is_fetched_or_installed_unasked (scripted (accepting march5 march5))
           utc (Some reentered) (nightly_config true Stable) false
           (Some "1583020800000"%string) eq_refl eq_refl).
Defined.

(** X24, witness: the prompt of an outdated nightly. *)
Lemma prompt_names_the_desired_channel_witness :
  In (OAskInformationMessage
        ("The installed nightly version is most likely outdated. "
         ++ "Do you want to download the " ++ "latest nightly"
         ++ " rust-analyzer extension " ++ "version and reload the window now?")
        ["Download now"; "Cancel"]%string (Some (Resolved (Some "Cancel"%string))))
     (trace (orchestrate (declining march1 march5) (nightly_config true Nightly)
               (Some "1583366400000"%string)))
  /\ exists reason,
       ("The installed nightly version is most likely outdated. "
        ++ "Do you want to download the " ++ "latest nightly"
        ++ " rust-analyzer extension " ++ "version and reload the window now?")%string
       = (reason ++ "Do you want to download the " ++ "latest nightly"
          ++ " rust-analyzer extension " ++ "version and reload the window now?")%string
       /\ (reason = ""%string
           \/ reason = "The installed nightly version is most likely outdated. "%string
              /\ installedExtensionUpdateChannel (nightly_config true Nightly) = Nightly
              /\ updatesChannel (nightly_config true Nightly) = Nightly).
Proof.
  assert (H : In (OAskInformationMessage
        ("The installed nightly version is most likely outdated. "
         ++ "Do you want to download the " ++ "latest nightly"
         ++ " rust-analyzer extension " ++ "version and reload the window now?")
        ["Download now"; "Cancel"]%string (Some (Resolved (Some "Cancel"%string))))
     (trace (orchestrate (declining march1 march5) (nightly_config true Nightly)
               (Some "1583366400000"%string)))).
  { vm_compute. do 4 right. left. reflexivity. }
  split; [ exact H | ].
  exact (proj2 (prompt_names_the_desired_channel (scripted (declining march1 march5)) utc
                  (Some reentered) (nightly_config true Nightly) false
                  (Some "1583366400000"%string) _ _ _ H)).
Defined.

End MoreRuns.
